(** * inventory_system.py: the [InventoryManager] class

    A shallow embedding of [src/inventory_system.py] and the properties of
    its operations: [add_item], [remove_item], [get_quantity], [load_data],
    [save_data], [print_data] and [check_low_items].

    Python objects are modelled by the inductive [pyval]; a Python [dict] is
    an association list in insertion order; an exception that a method lets
    escape is a [Raise] outcome; the logger is the list of records emitted
    so far; the file system is a function from paths to file states.  The
    [json] module is not part of the repository: the development is
    parametric in it (class [JSON]), and a reference instance with the
    layout and the escapes of [json.dump(..., indent=4)] is given, for
    running the scenarios and for the round trip of a store through a
    file. *)

From Stdlib Require Import ZArith List String Ascii Bool Lia DecimalString.
From Stdlib Require DecimalFacts DecimalPos.
Import ListNotations.
Open Scope string_scope.
Open Scope Z_scope.

(** ** Python values *)

(** The values that can sit in [self._stock_data], which is annotated
    [Dict[str, Dict[str, Any]]] but is assigned whatever [json.load]
    returns.  Numbers with a fraction or an exponent (Python [float]) are
    outside the model. *)
#[warnings="-register-all"]
Inductive pyval : Type :=
| PNone
| PBool (b : bool)
| PInt  (z : Z)
| PStr  (s : string)
| PList (l : list pyval)
| PDict (d : list (string * pyval)).

(** ** Python [dict] with [str] keys, in insertion order *)
Module Dict.
Section Ops.
Context {V : Type}.
Definition t := list (string * V).

(** [d.get(k)] / [k in d] *)
Fixpoint get (d : t) (k : string) : option V :=
  match d with
  | [] => None
  | (k', v) :: d' => if String.eqb k k' then Some v else get d' k
  end.

Definition mem (d : t) (k : string) : bool :=
  match get d k with Some _ => true | None => false end.

(** [d[k] = v]: an existing key keeps its position, a new key goes last. *)
Fixpoint set (d : t) (k : string) (v : V) : t :=
  match d with
  | [] => [(k, v)]
  | (k', v') :: d' =>
      if String.eqb k k' then (k', v) :: d' else (k', v') :: set d' k v
  end.

(** [del d[k]], for a key of [d]: the key and its value are gone. *)
Fixpoint del (d : t) (k : string) : t :=
  match d with
  | [] => []
  | (k', v') :: d' =>
      if String.eqb k k' then del d' k else (k', v') :: del d' k
  end.

Definition keys (d : t) : list string := map fst d.
End Ops.
Arguments t : clear implicits.
End Dict.

(** ** Exceptions and outcomes *)

Inductive exn : Type :=
| AttributeError
| TypeError
| KeyError (k : string)
| OSError
| UnicodeDecodeError
| JSONDecodeError.

(** The outcome of a call: it returns a value or lets an exception escape
    to the caller. *)
Inductive result (A : Type) : Type :=
| Return (a : A)
| Raise (e : exn).
Arguments Return {A} a.
Arguments Raise {A} e.

Definition bind {A B} (r : result A) (k : A -> result B) : result B :=
  match r with
  | Return a => k a
  | Raise e => Raise e
  end.

Notation "x <- r ;; k" := (bind r (fun x => k))
  (at level 61, r at next level, right associativity).

Definition returns {A} (r : result A) : bool :=
  match r with Return _ => true | Raise _ => false end.

(** ** The logger *)

Inductive level : Type := INFO | WARNING | ERROR.

(** An argument of a logging call: a value, or the exception object caught. *)
Inductive log_arg : Type :=
| Val (v : pyval)
| Exc (e : exn).

(** A logging call: severity, the format string as written in the source,
    and its arguments (left unformatted). *)
Record log_record : Type := LogRecord {
  levelname : level;
  msg : string;
  args : list log_arg
}.

(** ** The manager object *)

Record InventoryManager : Type := Manager {
  _stock_data : pyval;
  _logger : list log_record
}.

(** [__init__] *)
Definition init : InventoryManager :=
  {| _stock_data := PDict []; _logger := [] |}.

Definition log (self : InventoryManager) (l : level) (m : string)
    (a : list log_arg) : InventoryManager :=
  {| _stock_data := _stock_data self;
     _logger := _logger self ++ [LogRecord l m a] |}.

Definition set_stock (self : InventoryManager) (v : pyval) : InventoryManager :=
  {| _stock_data := v; _logger := _logger self |}.

(** A [List[str]] as a Python value. *)
Definition str_list (l : list string) : pyval := PList (map PStr l).

(** [tags or []], for [tags : List[str] | None]. *)
Definition tags_or_empty (tags : option (list string)) : list string :=
  match tags with
  | Some (t :: ts) => t :: ts
  | Some [] => []
  | None => []
  end.

(** [add_item(item_name, tags, quantity)].  Item assignment raises
    [TypeError] on a value that is not a [dict] (a list takes integer
    indices only; the other values support no item assignment). *)
Definition add_item (self : InventoryManager) (item_name : string)
    (tags : option (list string)) (quantity : Z)
  : result unit * InventoryManager :=
  let tags := tags_or_empty tags in
  if quantity <? 0 then
    (Return tt,
     log self ERROR "Quantity must be non-negative for item: %s"
       [Val (PStr item_name)])
  else
    match _stock_data self with
    | PDict d =>
        let record := PDict [("quantity", PInt quantity); ("tags", str_list tags)] in
        let self := set_stock self (PDict (Dict.set d item_name record)) in
        (Return tt,
         log self INFO "Added item '%s' | Quantity: %d | Tags: %s"
           [Val (PStr item_name); Val (PInt quantity); Val (str_list tags)])
    | _ => (Raise TypeError, self)
    end.

(** [remove_item(item_name)].  [del] raises [KeyError] (caught here) on a
    missing key of a [dict], and [TypeError] (not caught) on any other
    value. *)
Definition remove_item (self : InventoryManager) (item_name : string)
  : result unit * InventoryManager :=
  match _stock_data self with
  | PDict d =>
      if Dict.mem d item_name then
        let self := set_stock self (PDict (Dict.del d item_name)) in
        (Return tt, log self INFO "Removed item: %s" [Val (PStr item_name)])
      else
        (Return tt,
         log self WARNING "Attempted to remove non-existent item: %s"
           [Val (PStr item_name)])
  | _ => (Raise TypeError, self)
  end.

(** [v.get(k, default)]: only a [dict] has the method. *)
Definition py_get (v : pyval) (k : string) (default : pyval) : result pyval :=
  match v with
  | PDict d =>
      Return (match Dict.get d k with Some x => x | None => default end)
  | _ => Raise AttributeError
  end.

(** [get_quantity(item_name)]:
    [self._stock_data.get(item_name, {}).get("quantity", 0)]. *)
Definition get_quantity (self : InventoryManager) (item_name : string)
  : result pyval :=
  details <- py_get (_stock_data self) item_name (PDict []) ;;
  py_get details "quantity" (PInt 0).

(** [v < threshold] for an [int] threshold: defined on [int] and on [bool]
    (a subclass of [int]); [TypeError] on every other value. *)
Definition py_lt (v : pyval) (threshold : Z) : result bool :=
  match v with
  | PInt z => Return (z <? threshold)
  | PBool b => Return (Z.b2z b <? threshold)
  | _ => Raise TypeError
  end.

(** The list comprehension of [check_low_items], over [d.items()]: the
    first record on which [.get] or [<] raises aborts the whole
    comprehension. *)
Fixpoint low_items (items : list (string * pyval)) (threshold : Z)
  : result (list string) :=
  match items with
  | [] => Return []
  | (name, details) :: rest =>
      q <- py_get details "quantity" (PInt 0) ;;
      is_low <- py_lt q threshold ;;
      others <- low_items rest threshold ;;
      Return (if is_low then name :: others else others)
  end.

(** [", ".join(names)] *)
Definition join (names : list string) : string := String.concat ", " names.

(** [check_low_items(threshold)] *)
Definition check_low_items (self : InventoryManager) (threshold : Z)
  : result (list string) * InventoryManager :=
  match _stock_data self with
  | PDict d =>
      match low_items d threshold with
      | Return [] =>
          (Return [], log self INFO "All items are sufficiently stocked." [])
      | Return names =>
          (Return names,
           log self WARNING "Low stock items: %s" [Val (PStr (join names))])
      | Raise e => (Raise e, self)
      end
  | _ => (Raise AttributeError, self)
  end.

(** Truth value of an object, as tested by [if not self._stock_data]. *)
Definition truthy (v : pyval) : bool :=
  match v with
  | PNone => false
  | PBool b => b
  | PInt z => negb (z =? 0)
  | PStr s => negb (String.eqb s EmptyString)
  | PList l => match l with [] => false | _ => true end
  | PDict d => match d with [] => false | _ => true end
  end.

(** [v[k]] for a [str] key: [KeyError] on a [dict] without the key,
    [TypeError] on anything that is not a [dict]. *)
Definition py_getitem (v : pyval) (k : string) : result pyval :=
  match v with
  | PDict d =>
      match Dict.get d k with Some x => Return x | None => Raise (KeyError k) end
  | _ => Raise TypeError
  end.

(** The loop of [print_data]; the records logged before a failing one stay
    logged.  (A value that [%d] cannot format is reported by the logging
    module itself and does not raise.) *)
Fixpoint print_items (self : InventoryManager) (items : list (string * pyval))
  : result unit * InventoryManager :=
  match items with
  | [] => (Return tt, self)
  | (name, details) :: rest =>
      match py_getitem details "quantity" with
      | Raise e => (Raise e, self)
      | Return q =>
          match py_getitem details "tags" with
          | Raise e => (Raise e, self)
          | Return t =>
              print_items
                (log self INFO "%s: %d units | Tags: %s"
                   [Val (PStr name); Val q; Val t])
                rest
          end
      end
  end.

(** [print_data()] *)
Definition print_data (self : InventoryManager)
  : result unit * InventoryManager :=
  if negb (truthy (_stock_data self)) then
    (Return tt, log self INFO "Inventory is empty." [])
  else
    let self := log self INFO "Inventory contents:" [] in
    match _stock_data self with
    | PDict d => print_items self d
    | _ => (Raise AttributeError, self)
    end.

(** ** Files *)

(** What a path denotes.  A missing path can be created by [open("w")] or
    not (no such directory, no permission); a present one can be opened for
    reading, for writing, both or neither.  The content is the bytes of the
    file.

    The paths of the model are names that the operating system takes.  A
    path with a NUL character, at which [open] raises [ValueError], and a
    name too long for the system, at which [Path.exists] itself raises
    [OSError] outside the [try] of [load_data], have no counterpart here:
    a statement about every path is about every path of this kind. *)
Inductive file_state : Type :=
| Missing (creatable : bool)
| Present (readable writable : bool) (content : string).

Definition filesystem : Type := string -> file_state.

(** [filename.exists()] *)
Definition exists_ (fs : filesystem) (filename : string) : bool :=
  match fs filename with
  | Present _ _ _ => true
  | Missing _ => false
  end.

(** Well-formed UTF-8 (RFC 3629): what the [utf-8] codec of
    [open(..., encoding="utf-8")] decodes without error. *)
Module UTF8.
Definition between (lo hi : nat) (c : ascii) : bool :=
  let n := nat_of_ascii c in Nat.leb lo n && Nat.leb n hi.

Definition cont : ascii -> bool := between 128 191.

Fixpoint valid (s : string) : bool :=
  match s with
  | EmptyString => true
  | String a s1 =>
      if between 0 127 a then valid s1
      else
        match s1 with
        | EmptyString => false
        | String b s2 =>
            if between 194 223 a then cont b && valid s2
            else
              match s2 with
              | EmptyString => false
              | String c s3 =>
                  let second3 :=
                    if between 224 224 a then between 160 191 b
                    else if between 237 237 a then between 128 159 b
                    else between 225 239 a && cont b in
                  if between 224 239 a then second3 && cont c && valid s3
                  else
                    match s3 with
                    | EmptyString => false
                    | String d s4 =>
                        let second4 :=
                          if between 240 240 a then between 144 191 b
                          else if between 244 244 a then between 128 143 b
                          else between 241 243 a && cont b in
                        between 240 244 a && second4 && cont c && cont d
                        && valid s4
                    end
              end
        end
  end.
End UTF8.

(** [filename.open("r", encoding="utf-8")] followed by reading the whole
    file, as [json.load] does first: [OSError] when the file cannot be
    opened, [UnicodeDecodeError] when its bytes are not UTF-8.  A text is
    represented by its UTF-8 encoding. *)
Definition read_text (fs : filesystem) (filename : string) : result string :=
  match fs filename with
  | Present true _ content =>
      if UTF8.valid content then Return content else Raise UnicodeDecodeError
  | _ => Raise OSError
  end.

(** [filename.open("w", encoding="utf-8")] followed by writing [text]; a new
    file is readable and writable. *)
Definition write_text (fs : filesystem) (filename : string) (text : string)
  : result filesystem :=
  let updated (st : file_state) : filesystem :=
    fun p => if String.eqb p filename then st else fs p in
  match fs filename with
  | Missing true => Return (updated (Present true true text))
  | Present r true _ => Return (updated (Present r true text))
  | _ => Raise OSError
  end.


(** ** The [json] module, as a parameter *)

(** [json_dumps v] is the text [json.dump(v, file, indent=4)] writes;
    [json_loads text] is the value [json.load] returns, or [None] when it
    raises [JSONDecodeError].

    Both are functions of their argument alone.  The limits of the
    interpreter are left out: an [int] of more than 4300 digits, at which
    [json.dump] and [json.load] raise [ValueError], and nesting beyond the
    recursion limit, at which they raise [RecursionError]. *)
Class JSON : Type := {
  json_dumps : pyval -> string;
  json_loads : string -> option pyval
}.

(** [self._stock_data.clear()]: a [dict] and a [list] are emptied in place;
    no other value has the method. *)
Definition clear (self : InventoryManager) : result unit * InventoryManager :=
  match _stock_data self with
  | PDict _ => (Return tt, set_stock self (PDict []))
  | PList _ => (Return tt, set_stock self (PList []))
  | _ => (Raise AttributeError, self)
  end.

Section Persistence.
Context `{J : JSON}.

(** [load_data(filename)].  The handlers catch [json.JSONDecodeError] and
    [OSError]; [UnicodeDecodeError] is a [ValueError] that is neither, and
    leaves the method with the store untouched.  It is the one escape of
    the read that is modelled: see [filesystem] for [exists] and [JSON] for
    the limits of the interpreter. *)
Definition load_data (self : InventoryManager) (fs : filesystem)
    (filename : string) : result unit * InventoryManager :=
  if negb (exists_ fs filename) then
    clear (log self WARNING
             "File not found: %s. Starting with empty inventory."
             [Val (PStr filename)])
  else
    match read_text fs filename with
    | Raise OSError =>
        clear (log self ERROR "Error reading %s: %s"
                 [Val (PStr filename); Exc OSError])
    | Raise err => (Raise err, self)
    | Return text =>
        match json_loads text with
        | Some data =>
            (Return tt,
             log (set_stock self data) INFO
               "Data loaded successfully from %s" [Val (PStr filename)])
        | None =>
            clear (log self ERROR "Invalid JSON in %s: %s. Starting empty."
                     [Val (PStr filename); Exc JSONDecodeError])
        end
    end.

(** [save_data(filename)].  The handler catches [OSError], from [open] or
    from the write.  The text is written whole or not at all: a
    [json.dump] that raises after [open] has truncated the file (the
    [ValueError] of an [int] of more than 4300 digits, which the handler
    does not catch) is not modelled, see [JSON]. *)
Definition save_data (self : InventoryManager) (fs : filesystem)
    (filename : string) : result unit * InventoryManager * filesystem :=
  match write_text fs filename (json_dumps (_stock_data self)) with
  | Return fs' =>
      (Return tt,
       log self INFO "Data saved successfully to %s" [Val (PStr filename)],
       fs')
  | Raise err =>
      (Return tt, log self ERROR "Failed to save data: %s" [Exc err], fs)
  end.
End Persistence.

(** ** A reference instance of the [json] module

    A printer with the layout and the escapes of
    [json.dump(..., indent=4)] and a parser for the grammar of [json.load],
    over the values of [pyval]: numbers with a fraction or an exponent are
    not read, and the limits of the interpreter (an [int] of more than
    4300 digits, nesting beyond the recursion limit), at which both
    functions raise, are not part of it. *)
Module RefJSON.

Definition nl : string := String (ascii_of_nat 10) EmptyString.

Fixpoint spaces (n : nat) : string :=
  match n with O => EmptyString | S n => String " " (spaces n) end.

Definition hex_digit (n : nat) : ascii :=
  ascii_of_nat (if Nat.ltb n 10 then 48 + n else 87 + n).

(** [\uXXXX] *)
Definition u_escape (n : N) : string :=
  let digit (k : N) : ascii := hex_digit (N.to_nat (N.modulo k 16)) in
  "\u" ++ String (digit (n / 4096)%N)
            (String (digit (n / 256)%N)
               (String (digit (n / 16)%N) (String (digit n) EmptyString))).

(** An ASCII character, as [ensure_ascii] writes it: as it is when it is
    printable and neither the quote nor the backslash. *)
Definition escape_char (c : ascii) : string :=
  let n := nat_of_ascii c in
  if Nat.eqb n 34 then String (ascii_of_nat 92) (String c EmptyString)
  else if Nat.eqb n 92 then "\\"
  else if Nat.eqb n 10 then "\n"
  else if Nat.eqb n 13 then "\r"
  else if Nat.eqb n 9 then "\t"
  else if Nat.eqb n 8 then "\b"
  else if Nat.eqb n 12 then "\f"
  else if Nat.ltb n 32 || Nat.eqb n 127 then u_escape (N.of_nat n)
  else String c EmptyString.

(** A character beyond ASCII: one escape, or a surrogate pair beyond the
    basic plane. *)
Definition escape_point (cp : N) : string :=
  if (cp <? 65536)%N then u_escape cp
  else (u_escape (55296 + (cp - 65536) / 1024)
        ++ u_escape (56320 + N.modulo (cp - 65536) 1024))%N.

Definition byte (c : ascii) : N := N.of_nat (nat_of_ascii c).

(** The characters of a text held as UTF-8, escaped one by one. *)
Fixpoint escape (s : string) : string :=
  match s with
  | EmptyString => EmptyString
  | String a s1 =>
      if UTF8.between 0 127 a then escape_char a ++ escape s1
      else
        match s1 with
        | EmptyString => String a EmptyString
        | String b s2 =>
            if UTF8.between 194 223 a then
              escape_point ((byte a - 192) * 64 + (byte b - 128))%N
              ++ escape s2
            else
              match s2 with
              | EmptyString => String a (String b EmptyString)
              | String c s3 =>
                  if UTF8.between 224 239 a then
                    escape_point ((byte a - 224) * 4096 + (byte b - 128) * 64
                                  + (byte c - 128))%N
                    ++ escape s3
                  else
                    match s3 with
                    | EmptyString => String a (String b (String c EmptyString))
                    | String d s4 =>
                        escape_point ((byte a - 240) * 262144
                                      + (byte b - 128) * 4096
                                      + (byte c - 128) * 64 + (byte d - 128))%N
                        ++ escape s4
                    end
              end
        end
  end.

Definition quote (s : string) : string :=
  String (ascii_of_nat 34) (escape s ++ String (ascii_of_nat 34) EmptyString).

Definition print_int (z : Z) : string :=
  NilZero.string_of_int (Z.to_int z).

Fixpoint print (indent : nat) (v : pyval) : string :=
  let inner := (indent + 4)%nat in
  match v with
  | PNone => "null"
  | PBool true => "true"
  | PBool false => "false"
  | PInt z => print_int z
  | PStr s => quote s
  | PList [] => "[]"
  | PList (x :: xs) =>
      "[" ++ nl ++ spaces inner ++ print inner x
      ++ (fix rest (l : list pyval) : string :=
            match l with
            | [] => EmptyString
            | y :: l' => "," ++ nl ++ spaces inner ++ print inner y ++ rest l'
            end) xs
      ++ nl ++ spaces indent ++ "]"
  | PDict [] => "{}"
  | PDict ((k, x) :: xs) =>
      "{" ++ nl ++ spaces inner ++ quote k ++ ": " ++ print inner x
      ++ (fix rest (l : list (string * pyval)) : string :=
            match l with
            | [] => EmptyString
            | (k', y) :: l' =>
                "," ++ nl ++ spaces inner ++ quote k' ++ ": "
                ++ print inner y ++ rest l'
            end) xs
      ++ nl ++ spaces indent ++ "}"
  end.

Definition is_quote (c : ascii) : bool := Nat.eqb (nat_of_ascii c) 34.

Definition is_ws (c : ascii) : bool :=
  let n := nat_of_ascii c in
  Nat.eqb n 32 || Nat.eqb n 10 || Nat.eqb n 13 || Nat.eqb n 9.

Fixpoint skip_ws (s : string) : string :=
  match s with
  | String c s' => if is_ws c then skip_ws s' else s
  | EmptyString => s
  end.

Definition hex_value (c : ascii) : option nat :=
  let n := nat_of_ascii c in
  if Nat.leb 48 n && Nat.leb n 57 then Some (n - 48)%nat
  else if Nat.leb 97 n && Nat.leb n 102 then Some (n - 87)%nat
  else if Nat.leb 65 n && Nat.leb n 70 then Some (n - 55)%nat
  else None.

Definition unescape (c : ascii) : option ascii :=
  let n := nat_of_ascii c in
  if Nat.eqb n 34 || Nat.eqb n 92 || Nat.eqb n 47 then Some c
  else if Nat.eqb n 110 then Some (ascii_of_nat 10)
  else if Nat.eqb n 114 then Some (ascii_of_nat 13)
  else if Nat.eqb n 116 then Some (ascii_of_nat 9)
  else if Nat.eqb n 98 then Some (ascii_of_nat 8)
  else if Nat.eqb n 102 then Some (ascii_of_nat 12)
  else None.

(** The four hexadecimal digits of a [\u] escape. *)
Definition hex4_value (a b c d : ascii) : option N :=
  match hex_value a, hex_value b, hex_value c, hex_value d with
  | Some x, Some y, Some z, Some w =>
      Some (N.of_nat x * 4096 + N.of_nat y * 256 + N.of_nat z * 16
            + N.of_nat w)%N
  | _, _, _, _ => None
  end.

(** A character as UTF-8. *)
Definition utf8_encode (cp : N) : string :=
  let b (n : N) : ascii := ascii_of_N n in
  if (cp <? 128)%N then String (b cp) EmptyString
  else if (cp <? 2048)%N then
    String (b (192 + cp / 64)%N)
      (String (b (128 + N.modulo cp 64)%N) EmptyString)
  else if (cp <? 65536)%N then
    String (b (224 + cp / 4096)%N)
      (String (b (128 + N.modulo (cp / 64) 64)%N)
         (String (b (128 + N.modulo cp 64)%N) EmptyString))
  else
    String (b (240 + cp / 262144)%N)
      (String (b (128 + N.modulo (cp / 4096) 64)%N)
         (String (b (128 + N.modulo (cp / 64) 64)%N)
            (String (b (128 + N.modulo cp 64)%N) EmptyString))).

Definition prepend (chars : string) (r : option (string * string))
  : option (string * string) :=
  match r with
  | Some (str, rest) => Some (chars ++ str, rest)
  | None => None
  end.

(** The characters of a string literal after its opening quote.  A [\u]
    escape of a high surrogate is read with the low surrogate that
    follows it; a surrogate on its own, which is no character, is not
    read. *)
Fixpoint parse_chars (s : string) : option (string * string) :=
  match s with
  | EmptyString => None
  | String c s' =>
      let n := nat_of_ascii c in
      if Nat.eqb n 34 then Some (EmptyString, s')
      else if Nat.ltb n 32 then None
      else if Nat.eqb n 92 then
        match s' with
        | String "u" (String a (String b (String c' (String d s'')))) =>
            match hex4_value a b c' d with
            | Some u =>
                if (u <? 55296)%N || (57344 <=? u)%N then
                  prepend (utf8_encode u) (parse_chars s'')
                else if (u <? 56320)%N then
                  match s'' with
                  | String bs (String "u" (String e (String f (String g
                      (String h s3))))) =>
                      match hex4_value e f g h with
                      | Some v =>
                          if Nat.eqb (nat_of_ascii bs) 92
                             && (56320 <=? v)%N && (v <? 57344)%N
                          then
                            prepend
                              (utf8_encode (65536 + (u - 55296) * 1024
                                            + (v - 56320))%N)
                              (parse_chars s3)
                          else None
                      | None => None
                      end
                  | _ => None
                  end
                else None
            | None => None
            end
        | String e s'' =>
            match unescape e, parse_chars s'' with
            | Some x, Some (str, r) => Some (String x str, r)
            | _, _ => None
            end
        | EmptyString => None
        end
      else
        match parse_chars s' with
        | Some (str, r) => Some (String c str, r)
        | None => None
        end
  end.

Definition is_digit (c : ascii) : bool :=
  let n := nat_of_ascii c in Nat.leb 48 n && Nat.leb n 57.

Fixpoint digits (s : string) (acc : Z) (seen : nat) : Z * nat * string :=
  match s with
  | String c s' =>
      if is_digit c
      then digits s' (10 * acc + Z.of_nat (nat_of_ascii c - 48)) (S seen)
      else (acc, seen, s)
  | EmptyString => (acc, seen, s)
  end.

(** An integer literal; a fraction or an exponent makes the number a
    [float], which this instance does not read. *)
Definition parse_int (s : string) : option (Z * string) :=
  let '(neg, body) :=
    match s with
    | String "-" s' => (true, s')
    | _ => (false, s)
    end in
  let leading_zero :=
    match body with String "0" _ => true | _ => false end in
  let '(z, seen, r) := digits body 0 0 in
  let float_tail :=
    match r with
    | String "." _ | String "e" _ | String "E" _ => true
    | _ => false
    end in
  if Nat.eqb seen 0 || (leading_zero && Nat.ltb 1 seen) || float_tail
  then None
  else Some (if neg then - z else z, r).

Definition expect (word : string) (v : pyval) (s : string)
  : option (pyval * string) :=
  if String.prefix word s
  then Some (v, String.substring (String.length word)
                  (String.length s - String.length word) s)
  else None.

(** The elements of an array after the first one is due. *)
Fixpoint parse_elements (value : string -> option (pyval * string))
    (n : nat) (s : string) (acc : list pyval)
  : option (list pyval * string) :=
  match n with
  | O => None
  | S n =>
      match value s with
      | Some (v, s1) =>
          match skip_ws s1 with
          | String "," s2 => parse_elements value n s2 (acc ++ [v])%list
          | String "]" s2 => Some ((acc ++ [v])%list, s2)
          | _ => None
          end
      | None => None
      end
  end.

(** The members of an object; a repeated key keeps its first position and
    takes the last value, as [dict] does. *)
Fixpoint parse_members (value : string -> option (pyval * string))
    (n : nat) (s : string) (acc : list (string * pyval))
  : option (list (string * pyval) * string) :=
  match n with
  | O => None
  | S n =>
      match skip_ws s with
      | String c s0 =>
          match (if is_quote c then parse_chars s0 else None) with
          | Some (k, s1) =>
              match skip_ws s1 with
              | String ":" s2 =>
                  match value s2 with
                  | Some (v, s3) =>
                      match skip_ws s3 with
                      | String "," s4 =>
                          parse_members value n s4 (Dict.set acc k v)
                      | String "}" s4 => Some (Dict.set acc k v, s4)
                      | _ => None
                      end
                  | None => None
                  end
              | _ => None
              end
          | None => None
          end
      | _ => None
      end
  end.

Fixpoint parse_value (fuel : nat) (s : string) : option (pyval * string) :=
  match fuel with
  | O => None
  | S fuel =>
      match skip_ws s with
      | String "n" _ as s' => expect "null" PNone s'
      | String "t" _ as s' => expect "true" (PBool true) s'
      | String "f" _ as s' => expect "false" (PBool false) s'
      | String "[" s' =>
          match skip_ws s' with
          | String "]" r => Some (PList [], r)
          | _ =>
              match parse_elements (parse_value fuel) fuel s' [] with
              | Some (l, r) => Some (PList l, r)
              | None => None
              end
          end
      | String "{" s' =>
          match skip_ws s' with
          | String "}" r => Some (PDict [], r)
          | _ =>
              match parse_members (parse_value fuel) fuel s' [] with
              | Some (d, r) => Some (PDict d, r)
              | None => None
              end
          end
      | String c s' =>
          if is_quote c then
            match parse_chars s' with
            | Some (str, r) => Some (PStr str, r)
            | None => None
            end
          else
            match parse_int (String c s') with
            | Some (z, r) => Some (PInt z, r)
            | None => None
            end
      | EmptyString => None
      end
  end.

Definition parse (text : string) : option pyval :=
  match parse_value (S (String.length text)) text with
  | Some (v, r) =>
      match skip_ws r with
      | EmptyString => Some v
      | _ => None
      end
  | None => None
  end.

#[export] Instance json : JSON :=
  {| json_dumps := print 0; json_loads := parse |}.

(** A document written with ['] for the double quote. *)
Fixpoint doc (s : string) : string :=
  match s with
  | EmptyString => EmptyString
  | String c s' =>
      String (if Nat.eqb (nat_of_ascii c) 39 then ascii_of_nat 34 else c)
             (doc s')
  end.

End RefJSON.

(** ** Shapes of the store *)

Definition is_dict (v : pyval) : bool :=
  match v with PDict _ => true | _ => false end.

(** [Dict[str, Dict[str, Any]]], the declared type of [_stock_data]. *)
Definition conforms (v : pyval) : bool :=
  match v with
  | PDict d => forallb (fun kv => is_dict (snd kv)) d
  | _ => false
  end.

Fixpoint unique (l : list string) : bool :=
  match l with
  | [] => true
  | k :: l' => negb (existsb (String.eqb k) l') && unique l'
  end.

(** A record whose ["quantity"], when it has one, is an [int] ([bool], a
    subclass of [int], included). *)
Definition int_quantity (details : pyval) : bool :=
  match details with
  | PDict r =>
      match Dict.get r "quantity" with
      | Some (PInt _) | Some (PBool _) | None => true
      | Some _ => false
      end
  | _ => false
  end.

(** A store of such records; the names are distinct, as the keys of a
    [dict] are. *)
Definition well_formed (v : pyval) : bool :=
  match v with
  | PDict d => unique (Dict.keys d) && forallb (fun kv => int_quantity (snd kv)) d
  | _ => false
  end.

(** [name] is an item whose quantity, as [get_quantity] reports it, is
    strictly less than [threshold]. *)
Definition below (self : InventoryManager) (threshold : Z) (name : string)
  : bool :=
  match get_quantity self name with
  | Return q =>
      match py_lt q threshold with
      | Return is_low => is_low
      | Raise _ => false
      end
  | Raise _ => false
  end.

(** No record holds a negative quantity. *)
Definition nonneg_record (details : pyval) : bool :=
  match details with
  | PDict r =>
      match Dict.get r "quantity" with
      | Some (PInt q) => 0 <=? q
      | _ => true
      end
  | _ => true
  end.

Definition nonneg_quantities (v : pyval) : bool :=
  match v with
  | PDict d => forallb (fun kv => nonneg_record (snd kv)) d
  | _ => true
  end.

(** ** Sequences of calls *)

Inductive op : Type :=
| AddItem (item_name : string) (tags : option (list string)) (quantity : Z)
| RemoveItem (item_name : string)
| GetQuantity (item_name : string)
| LoadData (filename : string)
| SaveData (filename : string)
| PrintData
| CheckLowItems (threshold : Z).

Definition world : Type := InventoryManager * filesystem.

Section Runs.
Context `{J : JSON}.

(** One call by a caller that carries on whatever the call returns or
    raises. *)
Definition step (w : world) (o : op) : world :=
  let (self, fs) := w in
  match o with
  | AddItem n tags q => (snd (add_item self n tags q), fs)
  | RemoveItem n => (snd (remove_item self n), fs)
  | GetQuantity n => (self, fs)
  | LoadData p => (snd (load_data self fs p), fs)
  | SaveData p => let '(_, self', fs') := save_data self fs p in (self', fs')
  | PrintData => (snd (print_data self), fs)
  | CheckLowItems t => (snd (check_low_items self t), fs)
  end.

Definition run (ops : list op) (w : world) : world := fold_left step ops w.

(** The value a [load_data(filename)] would install, if it installs one. *)
Definition document (fs : filesystem) (filename : string) : option pyval :=
  if exists_ fs filename then
    match read_text fs filename with
    | Return text => json_loads text
    | Raise _ => None
    end
  else None.

(** Every document installed by a load along the run has non-negative
    quantities. *)
Fixpoint loads_nonneg (ops : list op) (w : world) : bool :=
  match ops with
  | [] => true
  | o :: ops' =>
      match o with
      | LoadData p =>
          match document (snd w) p with
          | Some v => nonneg_quantities v
          | None => true
          end
      | _ => true
      end
      && loads_nonneg ops' (step w o)
  end.
End Runs.

(** The calls of [main()]. *)
Definition main_ops : list op :=
  [ LoadData "stock.json";
    AddItem "Pen" (Some ["stationery"]) 15;
    AddItem "Notebook" (Some ["stationery"]) 7;
    RemoveItem "Pencil";
    PrintData;
    CheckLowItems 8;
    SaveData "stock.json" ].

(** A directory with no file in it, where any file can be created. *)
Definition empty_dir : filesystem := fun _ => Missing true.

(** ** Stores and files of the examples *)

(** The store of the example: Pen with 15 units, Notebook with 7. *)
Definition pen_notebook : Dict.t pyval :=
  [("Pen", PDict [("quantity", PInt 15); ("tags", str_list ["stationery"])]);
   ("Notebook", PDict [("quantity", PInt 7); ("tags", str_list ["stationery"])])].

(** A manager that holds the store of the example. *)
Definition stocked : InventoryManager := set_stock init (PDict pen_notebook).

(** A store as a load can leave it: the Pen record has no quantity. *)
Definition pen_without_quantity : Dict.t pyval :=
  [("Pen", PDict [("tags", str_list ["stationery"])]);
   ("Notebook", PDict [("quantity", PInt 7); ("tags", str_list [])])].

(** A run of [main()] in an empty directory, followed by a reload of the
    file it wrote and a rejected update. *)
Definition main_then_reload : list op :=
  (main_ops ++ [LoadData "stock.json"; AddItem "Pen" None (-3)])%list.

(** A file as another program, or an editor, can leave it. *)
Definition negative_stock : filesystem :=
  fun p =>
    if String.eqb p "stock.json"
    then Present true true
           (RefJSON.doc "{'Pen': {'quantity': -5, 'tags': ['stationery']}}")
    else Missing true.

(** A [stock.json] that holds the JSON array [[]]. *)
Definition array_stock : filesystem :=
  fun p =>
    if String.eqb p "stock.json" then Present true true "[]" else Missing true.

(** A [stock.json] whose record for Pen is a number. *)
Definition number_record_stock : filesystem :=
  fun p =>
    if String.eqb p "stock.json"
    then Present true true (RefJSON.doc "{'Pen': 5}")
    else Missing true.

(** A [stock.json] whose Pen has a string for quantity. *)
Definition string_quantity_stock : filesystem :=
  fun p =>
    if String.eqb p "stock.json"
    then Present true true
           (RefJSON.doc
              "{'Pen': {'quantity': 'many', 'tags': []}, 'Notebook': {'quantity': 7, 'tags': []}}")
    else Missing true.

(** A [stock.json] whose Pen has no quantity and whose Ink has a string
    for one. *)
Definition partial_stock : filesystem :=
  fun p =>
    if String.eqb p "stock.json"
    then Present true true
           (RefJSON.doc
              "{'Pen': {'tags': []}, 'Ink': {'quantity': 'many', 'tags': []}}")
    else Missing true.


(** A [stock.json] that holds the single byte 0xFF. *)
Definition undecodable_stock : filesystem :=
  fun p =>
    if String.eqb p "stock.json"
    then Present true true (String (ascii_of_nat 255) EmptyString)
    else Missing true.

(** A [stock.json] that holds the JSON document [5]. *)
Definition scalar_stock : filesystem :=
  fun p =>
    if String.eqb p "stock.json" then Present true true "5" else Missing true.

(** ** The summary and the demonstration *)

(** The number of characters of a text held as UTF-8: the bytes that are
    not continuation bytes. *)
Fixpoint code_points (s : string) : nat :=
  match s with
  | EmptyString => O
  | String c s' =>
      if UTF8.cont c then code_points s' else S (code_points s')
  end.

(** [len(v)]: defined on [dict], [list] and [str]; [TypeError] on the
    other values. *)
Definition py_len (v : pyval) : result nat :=
  match v with
  | PDict d => Return (List.length d)
  | PList l => Return (List.length l)
  | PStr s => Return (code_points s)
  | _ => Raise TypeError
  end.

(** [f"InventoryManager({n} items)"] *)
Definition summary (n : nat) : string :=
  "InventoryManager(" ++ NilZero.string_of_uint (Nat.to_uint n) ++ " items)".

(** [__str__()]: the summary of [len(self._stock_data)]. *)
Definition __str__ (self : InventoryManager) : result string :=
  n <- py_len (_stock_data self) ;;
  Return (summary n).

Definition exn_of {A} (r : result A) : option exn :=
  match r with Return _ => None | Raise e => Some e end.

Section Programs.
Context `{J : JSON}.

(** The exception a call lets escape, if any. *)
Definition escapes (w : world) (o : op) : option exn :=
  let (self, fs) := w in
  match o with
  | AddItem n tags q => exn_of (fst (add_item self n tags q))
  | RemoveItem n => exn_of (fst (remove_item self n))
  | GetQuantity n => exn_of (get_quantity self n)
  | LoadData p => exn_of (fst (load_data self fs p))
  | SaveData p => exn_of (fst (fst (save_data self fs p)))
  | PrintData => exn_of (fst (print_data self))
  | CheckLowItems t => exn_of (fst (check_low_items self t))
  end.

(** A straight-line program: the calls in order, abandoned at the first
    one that raises. *)
Fixpoint exec (ops : list op) (w : world) : option exn * world :=
  match ops with
  | [] => (None, w)
  | o :: ops' =>
      match escapes w o with
      | Some e => (Some e, step w o)
      | None => exec ops' (step w o)
      end
  end.

(** [main()], in the file system it is started in. *)
Definition main (fs : filesystem) : option exn * world :=
  exec main_ops (init, fs).

(** Every call of the sequence returns, for a caller that carries on. *)
Fixpoint all_return (ops : list op) (w : world) : bool :=
  match ops with
  | [] => true
  | o :: ops' =>
      match escapes w o with None => true | Some _ => false end
      && all_return ops' (step w o)
  end.
End Programs.

(** ** More shapes of stores and files *)

(** A record with both entries that [print_data] reads. *)
Definition complete_record (details : pyval) : bool :=
  match details with
  | PDict r => Dict.mem r "quantity" && Dict.mem r "tags"
  | _ => false
  end.

(** A record whose ["quantity"], when it has one, can be compared with an
    [int]. *)
Definition comparable_record (details : pyval) : bool :=
  match details with
  | PDict r =>
      match Dict.get r "quantity" with
      | Some (PInt _) | Some (PBool _) | None => true
      | Some _ => false
      end
  | _ => false
  end.

(** A record on which the comparison of [check_low_items] raises: not a
    dictionary, or with [None], a string, a list or a dictionary for
    quantity. *)
Definition uncomparable_record (details : pyval) : bool :=
  match details with
  | PDict r =>
      match Dict.get r "quantity" with
      | Some PNone | Some (PStr _) | Some (PList _) | Some (PDict _) => true
      | _ => false
      end
  | _ => true
  end.

(** A record as [add_item] writes it: a non-negative [int] quantity and
    tags. *)
Definition regular_record (details : pyval) : bool :=
  match details with
  | PDict r =>
      match Dict.get r "quantity" with
      | Some (PInt q) => (0 <=? q) && Dict.mem r "tags"
      | _ => false
      end
  | _ => false
  end.

(** A store of such records under distinct names. *)
Definition regular (v : pyval) : bool :=
  match v with
  | PDict d =>
      unique (Dict.keys d) && forallb (fun kv => regular_record (snd kv)) d
  | _ => false
  end.

(** The record [print_data] logs for one item whose record has both
    entries. *)
Definition item_line (item : string * pyval) : list log_record :=
  match py_getitem (snd item) "quantity", py_getitem (snd item) "tags" with
  | Return q, Return t =>
      [LogRecord INFO "%s: %d units | Tags: %s"
         [Val (PStr (fst item)); Val q; Val t]]
  | _, _ => []
  end.

(** ** Stores that go through a file *)










(** A value that has the method [clear]. *)
Definition clearable (v : pyval) : bool :=
  match v with
  | PDict _ | PList _ => true
  | _ => false
  end.

(** A file that opens for reading and whose bytes are not UTF-8. *)
Definition undecodable (fs : filesystem) (filename : string) : bool :=
  match fs filename with
  | Present true _ content => negb (UTF8.valid content)
  | _ => false
  end.

Section RegularRuns.
Context `{J : JSON}.

(** Every load of the run finds a file that decodes and, when it holds a
    document, a document that is a regular store. *)
Fixpoint loads_regular (ops : list op) (w : world) : bool :=
  match ops with
  | [] => true
  | o :: ops' =>
      match o with
      | LoadData p =>
          negb (undecodable (snd w) p)
          && match document (snd w) p with
             | Some v => regular v
             | None => true
             end
      | _ => true
      end
      && loads_regular ops' (step w o)
  end.
End RegularRuns.

(** No call of the sequence is a [load_data]. *)
Definition no_load (ops : list op) : bool :=
  forallb (fun o => match o with LoadData _ => false | _ => true end) ops.

(** * Properties *)

(** ** The dictionary *)
Module DictFacts.
Section Facts.
Context {V : Type}.
Implicit Types (d : Dict.t V) (k : string) (v : V).

Lemma get_set_same d k v : Dict.get (Dict.set d k v) k = Some v.
Proof.
  induction d as [|[k' v'] d IH]; simpl.
  - now rewrite String.eqb_refl.
  - destruct (String.eqb k k') eqn:E; simpl; rewrite E; auto.
Qed.

Lemma get_set_other d k k' v :
  k' <> k -> Dict.get (Dict.set d k v) k' = Dict.get d k'.
Proof.
  intros Hne. induction d as [|[k0 v0] d IH]; simpl.
  - destruct (String.eqb k' k) eqn:E; auto.
    apply String.eqb_eq in E. contradiction.
  - destruct (String.eqb k k0) eqn:E; simpl.
    + apply String.eqb_eq in E. subst k0.
      destruct (String.eqb k' k) eqn:E'; auto.
      apply String.eqb_eq in E'. contradiction.
    + now rewrite IH.
Qed.

Lemma keys_set_present d k v :
  Dict.mem d k = true -> Dict.keys (Dict.set d k v) = Dict.keys d.
Proof.
  unfold Dict.mem, Dict.keys.
  induction d as [|[k' v'] d IH]; simpl; [discriminate|].
  destruct (String.eqb k k') eqn:E; simpl; auto.
  intros Hm. now rewrite IH.
Qed.

Lemma get_del_same d k : Dict.get (Dict.del d k) k = None.
Proof.
  induction d as [|[k' v'] d IH]; simpl; auto.
  destruct (String.eqb k k') eqn:E; simpl; auto. now rewrite E.
Qed.

Lemma get_del_other d k k' :
  k' <> k -> Dict.get (Dict.del d k) k' = Dict.get d k'.
Proof.
  intros Hne. induction d as [|[k0 v0] d IH]; simpl; auto.
  destruct (String.eqb k k0) eqn:E; simpl.
  - apply String.eqb_eq in E. subst k0.
    destruct (String.eqb k' k) eqn:E'; auto.
    apply String.eqb_eq in E'. contradiction.
  - now rewrite IH.
Qed.

Lemma forallb_set (P : string * V -> bool) d k v :
  (forall k1 k2, P (k1, v) = P (k2, v)) ->
  forallb P d = true -> P (k, v) = true ->
  forallb P (Dict.set d k v) = true.
Proof.
  intros Hk Hd Hv. induction d as [|[k' v'] d IH]; simpl in *.
  - now rewrite Hv.
  - apply andb_true_iff in Hd as [H1 H2].
    destruct (String.eqb k k'); simpl.
    + rewrite (Hk k' k), Hv. exact H2.
    + rewrite H1. now apply IH.
Qed.

Lemma forallb_del (P : string * V -> bool) d k :
  forallb P d = true -> forallb P (Dict.del d k) = true.
Proof.
  induction d as [|[k' v'] d IH]; simpl; auto.
  intros Hd. apply andb_true_iff in Hd as [H1 H2].
  destruct (String.eqb k k'); simpl; auto.
  rewrite H1. now apply IH.
Qed.

Lemma get_in d k v : Dict.get d k = Some v -> In (k, v) d.
Proof.
  induction d as [|[k' v'] d IH]; simpl; [discriminate|].
  destruct (String.eqb k k') eqn:E.
  - apply String.eqb_eq in E. intros [= ->]. subst. now left.
  - intros Hg. right. now apply IH.
Qed.
End Facts.
End DictFacts.

(** ** Adding, removing and reading one item *)

Lemma is_dict_inv (v : pyval) :
  is_dict v = true -> exists d, v = PDict d.
Proof. destruct v; try discriminate. intros _. now eexists. Qed.

Lemma add_item_accepts (self : InventoryManager) (item_name : string)
    (tags : option (list string)) (quantity : Z) (d : Dict.t pyval) :
  _stock_data self = PDict d -> 0 <= quantity ->
  add_item self item_name tags quantity =
    (Return tt,
     log (set_stock self
            (PDict (Dict.set d item_name
                      (PDict [("quantity", PInt quantity);
                              ("tags", str_list (tags_or_empty tags))]))))
         INFO "Added item '%s' | Quantity: %d | Tags: %s"
         [Val (PStr item_name); Val (PInt quantity);
          Val (str_list (tags_or_empty tags))]).
Proof.
  intros Hd Hq. unfold add_item.
  destruct (quantity <? 0) eqn:E; [apply Z.ltb_lt in E; lia|].
  now rewrite Hd.
Qed.

(** C3, as the code has it.  On a store that is a dictionary, [add_item]
    with a non-negative quantity returns normally and [get_quantity] of the
    same name then returns that quantity, for every name and every tags
    argument. *)
Theorem add_then_get_quantity (self : InventoryManager) (item_name : string)
    (tags : option (list string)) (quantity : Z) :
  is_dict (_stock_data self) = true ->
  0 <= quantity ->
  fst (add_item self item_name tags quantity) = Return tt /\
  get_quantity (snd (add_item self item_name tags quantity)) item_name
    = Return (PInt quantity).
Proof.
  intros Hd Hq. apply is_dict_inv in Hd as [d Hd].
  rewrite (add_item_accepts self item_name tags quantity d Hd Hq).
  split; [reflexivity|].
  unfold get_quantity; simpl.
  now rewrite DictFacts.get_set_same.
Qed.

Lemma add_then_get_quantity_witness :
  is_dict (_stock_data init) = true /\ 0 <= 15 /\
  get_quantity (snd (add_item init "Pen" (Some ["stationery"]) 15)) "Pen"
    = Return (PInt 15).
Proof.
  split; [reflexivity|]. split; [lia|].
  apply (add_then_get_quantity init "Pen" (Some ["stationery"]) 15);
    [reflexivity | lia].
Defined.

(** C3, as stated, fails: after a load of the JSON array [[]] the store is
    a list; [add_item] with quantity 5 raises [TypeError], and
    [get_quantity] of the name raises [AttributeError] instead of
    returning 5. *)
Lemma add_after_array_load_raises :
  let self :=
    fst (run (J := RefJSON.json) [LoadData "stock.json"] (init, array_stock)) in
  _stock_data self = PList [] /\
  fst (add_item self "Pen" None 5) = Raise TypeError /\
  get_quantity (snd (add_item self "Pen" None 5)) "Pen" = Raise AttributeError.
Proof. vm_compute. repeat split. Qed.

(** C4.  [add_item] with a negative quantity returns normally, leaves the
    store as it was, whatever the store holds (so [get_quantity] answers as
    before), and logs one error record. *)
Theorem add_negative_rejected (self : InventoryManager) (item_name : string)
    (tags : option (list string)) (quantity : Z) :
  quantity < 0 ->
  fst (add_item self item_name tags quantity) = Return tt /\
  _stock_data (snd (add_item self item_name tags quantity)) = _stock_data self /\
  (forall name,
     get_quantity (snd (add_item self item_name tags quantity)) name
       = get_quantity self name) /\
  _logger (snd (add_item self item_name tags quantity))
    = (_logger self
       ++ [LogRecord ERROR "Quantity must be non-negative for item: %s"
             [Val (PStr item_name)]])%list.
Proof.
  intros Hq. unfold add_item.
  apply Z.ltb_lt in Hq. rewrite Hq. simpl.
  split; [reflexivity|]. split; [reflexivity|]. split; [|reflexivity].
  intros name. reflexivity.
Qed.

Lemma add_negative_rejected_witness :
  -1 < 0 /\
  _stock_data (snd (add_item (snd (add_item init "Pen" None 15)) "Pen" None (-1)))
    = _stock_data (snd (add_item init "Pen" None 15)).
Proof.
  split; [lia|].
  apply (add_negative_rejected (snd (add_item init "Pen" None 15)) "Pen" None (-1)).
  lia.
Defined.

(** C7, as the code has it.  On a store that is a dictionary, [remove_item]
    returns normally and [get_quantity] of the removed name then returns 0,
    whether the name was a key or not; when it was not, the store is
    unchanged and one warning record is logged. *)
Theorem remove_then_get_quantity (self : InventoryManager) (item_name : string) :
  is_dict (_stock_data self) = true ->
  fst (remove_item self item_name) = Return tt /\
  get_quantity (snd (remove_item self item_name)) item_name = Return (PInt 0) /\
  (forall d, _stock_data self = PDict d -> Dict.mem d item_name = false ->
     _stock_data (snd (remove_item self item_name)) = _stock_data self /\
     _logger (snd (remove_item self item_name))
       = (_logger self
          ++ [LogRecord WARNING "Attempted to remove non-existent item: %s"
                [Val (PStr item_name)]])%list).
Proof.
  intros Hd. apply is_dict_inv in Hd as [d Hd].
  unfold remove_item. rewrite Hd.
  destruct (Dict.mem d item_name) eqn:Hm; simpl.
  - split; [reflexivity|]. split.
    + unfold get_quantity; simpl. now rewrite DictFacts.get_del_same.
    + intros d' [= <-] Hm'. congruence.
  - split; [reflexivity|]. split.
    + unfold get_quantity; simpl. rewrite Hd; simpl.
      unfold Dict.mem in Hm.
      now destruct (Dict.get d item_name).
    + intros d' _ _. now rewrite Hd.
Qed.

Lemma remove_then_get_quantity_witness :
  is_dict (_stock_data (snd (add_item init "Pen" None 15))) = true /\
  get_quantity
    (snd (remove_item (snd (add_item init "Pen" None 15)) "Pen")) "Pen"
    = Return (PInt 0) /\
  get_quantity
    (snd (remove_item (snd (add_item init "Pen" None 15)) "Pencil")) "Pencil"
    = Return (PInt 0).
Proof.
  split; [reflexivity|]. split.
  - apply (remove_then_get_quantity (snd (add_item init "Pen" None 15)) "Pen").
    reflexivity.
  - apply (remove_then_get_quantity (snd (add_item init "Pen" None 15)) "Pencil").
    reflexivity.
Defined.

(** C7, as stated, fails: after a load of the JSON array [[]],
    [remove_item] of a name that is absent raises [TypeError] to the
    caller, and [get_quantity] of it raises too. *)
Lemma remove_after_array_load_raises :
  let self :=
    fst (run (J := RefJSON.json) [LoadData "stock.json"] (init, array_stock)) in
  fst (remove_item self "Pencil") = Raise TypeError /\
  get_quantity (snd (remove_item self "Pencil")) "Pencil"
    = Raise AttributeError.
Proof. vm_compute. split; reflexivity. Qed.

Lemma conforms_get (d : Dict.t pyval) (k : string) (v : pyval) :
  conforms (PDict d) = true -> Dict.get d k = Some v -> is_dict v = true.
Proof.
  simpl. intros Hc Hg. apply DictFacts.get_in in Hg.
  rewrite forallb_forall in Hc. exact (Hc _ Hg).
Qed.

(** C8, as the code has it.  [get_quantity] is a function of the store
    alone (it has no effect on it).  On a store of the declared type
    [Dict[str, Dict[str, Any]]] it always returns: 0 for a name that is not
    a key, and the stored quantity for a name whose record has one. *)
Theorem get_quantity_spec (self : InventoryManager) (d : Dict.t pyval)
    (item_name : string) :
  _stock_data self = PDict d ->
  conforms (PDict d) = true ->
  returns (get_quantity self item_name) = true /\
  (Dict.get d item_name = None ->
     get_quantity self item_name = Return (PInt 0)) /\
  (forall r q,
     Dict.get d item_name = Some (PDict r) ->
     Dict.get r "quantity" = Some q ->
     get_quantity self item_name = Return q).
Proof.
  intros Hd Hc. unfold get_quantity. rewrite Hd. simpl.
  split; [|split].
  - destruct (Dict.get d item_name) as [v|] eqn:Hg; [|reflexivity].
    apply (conforms_get d item_name v Hc) in Hg.
    apply is_dict_inv in Hg as [r ->]. reflexivity.
  - intros ->. reflexivity.
  - intros r q -> Hq. simpl. now rewrite Hq.
Qed.

Lemma get_quantity_spec_witness :
  let self := fst (run (J := RefJSON.json) main_ops (init, empty_dir)) in
  get_quantity self "Notebook" = Return (PInt 7) /\
  get_quantity self "Pencil" = Return (PInt 0).
Proof.
  pose (self := fst (run (J := RefJSON.json) main_ops (init, empty_dir))).
  pose (d := [("Pen", PDict [("quantity", PInt 15);
                            ("tags", PList [PStr "stationery"])]);
              ("Notebook", PDict [("quantity", PInt 7);
                                 ("tags", PList [PStr "stationery"])])]).
  assert (Hd : _stock_data self = PDict d) by (vm_compute; reflexivity).
  assert (Hc : conforms (PDict d) = true) by reflexivity.
  destruct (get_quantity_spec self d "Notebook" Hd Hc) as (_ & _ & Hpresent).
  destruct (get_quantity_spec self d "Pencil" Hd Hc) as (_ & Habsent & _).
  split.
  - apply (Hpresent [("quantity", PInt 7); ("tags", PList [PStr "stationery"])]);
      reflexivity.
  - apply Habsent. reflexivity.
Defined.

(** C8, as stated, fails: after a load of a document whose record for Pen
    is the number 5, [get_quantity] of Pen raises [AttributeError]. *)
Lemma get_quantity_number_record_raises :
  let self :=
    fst (run (J := RefJSON.json) [LoadData "stock.json"]
           (init, number_record_stock)) in
  _stock_data self = PDict [("Pen", PInt 5)] /\
  get_quantity self "Pen" = Raise AttributeError.
Proof. vm_compute. split; reflexivity. Qed.

(** C9.  Adding (with a non-negative quantity) under a name that is already
    a key replaces that key's record by exactly the new quantity and tags,
    whatever the old record held; every other key keeps its record, and the
    keys and their order are unchanged. *)
Theorem add_existing_overwrites (self : InventoryManager) (d : Dict.t pyval)
    (item_name : string) (tags : option (list string)) (quantity : Z) :
  _stock_data self = PDict d ->
  Dict.mem d item_name = true ->
  0 <= quantity ->
  exists d',
    _stock_data (snd (add_item self item_name tags quantity)) = PDict d' /\
    Dict.get d' item_name
      = Some (PDict [("quantity", PInt quantity);
                     ("tags", str_list (tags_or_empty tags))]) /\
    (forall other, other <> item_name -> Dict.get d' other = Dict.get d other) /\
    Dict.keys d' = Dict.keys d.
Proof.
  intros Hd Hm Hq.
  rewrite (add_item_accepts self item_name tags quantity d Hd Hq). simpl.
  eexists. split; [reflexivity|]. split; [|split].
  - apply DictFacts.get_set_same.
  - intros other Hne. now apply DictFacts.get_set_other.
  - now apply DictFacts.keys_set_present.
Qed.

Lemma add_existing_overwrites_witness :
  exists d',
    _stock_data
      (snd (add_item (snd (add_item init "Pen" (Some ["stationery"; "blue"]) 15))
              "Pen" (Some ["office"]) 3)) = PDict d' /\
    Dict.get d' "Pen"
      = Some (PDict [("quantity", PInt 3); ("tags", str_list ["office"])]).
Proof.
  destruct (add_existing_overwrites
              (snd (add_item init "Pen" (Some ["stationery"; "blue"]) 15))
              [("Pen", PDict [("quantity", PInt 15);
                              ("tags", str_list ["stationery"; "blue"])])]
              "Pen" (Some ["office"]) 3)
    as (d' & H1 & H2 & _); [reflexivity | reflexivity | lia |].
  exists d'. split; assumption.
Defined.

(** ** Well-formed stores *)

Lemma existsb_keys_set (d : Dict.t pyval) (k k' : string) (v : pyval) :
  existsb (String.eqb k') (Dict.keys (Dict.set d k v))
    = existsb (String.eqb k') (Dict.keys d) || String.eqb k' k.
Proof.
  induction d as [|[k0 v0] d IH]; simpl.
  - now rewrite orb_false_r.
  - destruct (String.eqb k k0) eqn:E; simpl.
    + apply String.eqb_eq in E. subst k0.
      destruct (String.eqb k' k); simpl; [reflexivity | now rewrite orb_false_r].
    + rewrite IH. now rewrite orb_assoc.
Qed.

Lemma unique_set (d : Dict.t pyval) (k : string) (v : pyval) :
  unique (Dict.keys d) = true -> unique (Dict.keys (Dict.set d k v)) = true.
Proof.
  induction d as [|[k0 v0] d IH]; simpl; [reflexivity|].
  intros Hu. apply andb_true_iff in Hu as [Hfresh Hu].
  destruct (String.eqb k k0) eqn:E; simpl.
  - now rewrite Hfresh, Hu.
  - rewrite existsb_keys_set, IH by exact Hu.
    apply negb_true_iff in Hfresh. rewrite Hfresh.
    rewrite String.eqb_sym, E. reflexivity.
Qed.

Lemma existsb_keys_del (d : Dict.t pyval) (k k' : string) :
  existsb (String.eqb k') (Dict.keys d) = false ->
  existsb (String.eqb k') (Dict.keys (Dict.del d k)) = false.
Proof.
  induction d as [|[k0 v0] d IH]; simpl; [reflexivity|].
  intros Hex. apply orb_false_iff in Hex as [H1 H2].
  destruct (String.eqb k k0); simpl; [now apply IH|].
  rewrite H1. now apply IH.
Qed.

Lemma unique_del (d : Dict.t pyval) (k : string) :
  unique (Dict.keys d) = true -> unique (Dict.keys (Dict.del d k)) = true.
Proof.
  induction d as [|[k0 v0] d IH]; simpl; [reflexivity|].
  intros Hu. apply andb_true_iff in Hu as [Hfresh Hu].
  destruct (String.eqb k k0); simpl; [now apply IH|].
  apply negb_true_iff in Hfresh.
  rewrite (existsb_keys_del d k k0 Hfresh). now rewrite IH.
Qed.

(** The store of [__init__] is well formed, and [add_item] and
    [remove_item] keep a store well formed. *)
Lemma well_formed_init : well_formed (_stock_data init) = true.
Proof. reflexivity. Qed.

Lemma well_formed_add_item (self : InventoryManager) (item_name : string)
    (tags : option (list string)) (quantity : Z) :
  well_formed (_stock_data self) = true ->
  well_formed (_stock_data (snd (add_item self item_name tags quantity))) = true.
Proof.
  intros Hwf. unfold add_item.
  destruct (quantity <? 0); [exact Hwf|].
  destruct (_stock_data self) as [| | | | |d] eqn:E; try discriminate.
  simpl in *. apply andb_true_iff in Hwf as [Hu Hrec].
  rewrite unique_set by exact Hu.
  now rewrite DictFacts.forallb_set.
Qed.

Lemma well_formed_remove_item (self : InventoryManager) (item_name : string) :
  well_formed (_stock_data self) = true ->
  well_formed (_stock_data (snd (remove_item self item_name))) = true.
Proof.
  intros Hwf. unfold remove_item.
  destruct (_stock_data self) as [| | | | |d] eqn:E; try discriminate.
  destruct (Dict.mem d item_name); simpl; rewrite ?E; [|exact Hwf].
  simpl in Hwf. apply andb_true_iff in Hwf as [Hu Hrec].
  rewrite unique_del by exact Hu.
  now rewrite DictFacts.forallb_del.
Qed.

Lemma well_formed_conforms (v : pyval) :
  well_formed v = true -> conforms v = true.
Proof.
  destruct v as [| | | | |d]; try discriminate. simpl.
  intros Hwf. apply andb_true_iff in Hwf as [_ Hrec].
  rewrite forallb_forall in *. intros kv Hin. specialize (Hrec kv Hin).
  now destruct (snd kv).
Qed.

(** ** Low stock *)

Lemma unique_get (d : Dict.t pyval) (k : string) (v : pyval) :
  unique (Dict.keys d) = true -> In (k, v) d -> Dict.get d k = Some v.
Proof.
  induction d as [|[k' v'] d IH]; simpl; [contradiction|].
  intros Hu Hin. apply andb_true_iff in Hu as [Hfresh Hu].
  destruct Hin as [[= -> ->]|Hin].
  - now rewrite String.eqb_refl.
  - destruct (String.eqb k k') eqn:E; [|now apply IH].
    apply String.eqb_eq in E. subst k'.
    apply negb_true_iff in Hfresh.
    assert (Hex : existsb (String.eqb k) (Dict.keys d) = true).
    { apply existsb_exists. exists k. split; [|apply String.eqb_refl].
      unfold Dict.keys. change k with (fst (k, v)). now apply in_map. }
    congruence.
Qed.

Lemma below_record (self : InventoryManager) (d : Dict.t pyval)
    (threshold : Z) (name : string) (details : pyval) :
  _stock_data self = PDict d ->
  Dict.get d name = Some details ->
  int_quantity details = true ->
  (q <- py_get details "quantity" (PInt 0) ;; py_lt q threshold)
    = Return (below self threshold name).
Proof.
  intros Hd Hg Hi. unfold below, get_quantity. rewrite Hd. simpl. rewrite Hg.
  destruct details as [| | | | |r]; try discriminate. simpl in *.
  destruct (Dict.get r "quantity") as [[| | z | | |]|]; try discriminate;
    reflexivity.
Qed.

(** The comprehension is a filter of the keys, in the order of the store. *)
Lemma low_items_filter (self : InventoryManager) (d : Dict.t pyval)
    (threshold : Z) :
  _stock_data self = PDict d ->
  well_formed (PDict d) = true ->
  low_items d threshold
    = Return (filter (below self threshold) (Dict.keys d)).
Proof.
  intros Hd Hwf. simpl in Hwf. apply andb_true_iff in Hwf as [Hu Hrec].
  assert (Hsuffix : forall items,
             (forall k v, In (k, v) items -> Dict.get d k = Some v) ->
             forallb (fun kv => int_quantity (snd kv)) items = true ->
             low_items items threshold
               = Return (filter (below self threshold) (Dict.keys items))).
  { induction items as [|[name details] items IH]; intros Hget Hall;
      [reflexivity|].
    simpl in Hall. apply andb_true_iff in Hall as [Hi Hall].
    cbn [low_items Dict.keys map fst filter].
    pose proof (below_record self d threshold name details Hd
                  (Hget name details (or_introl eq_refl)) Hi) as Hb.
    unfold bind in *.
    destruct (py_get details "quantity" (PInt 0)) as [q|e]; [|discriminate].
    rewrite Hb.
    rewrite IH; [reflexivity | | exact Hall].
    intros k v Hin. apply Hget. now right. }
  apply Hsuffix; [|exact Hrec].
  intros k v Hin. now apply unique_get.
Qed.

Lemma check_low_items_returns (self : InventoryManager) (d : Dict.t pyval)
    (threshold : Z) (names : list string) :
  _stock_data self = PDict d ->
  low_items d threshold = Return names ->
  fst (check_low_items self threshold) = Return names /\
  _stock_data (snd (check_low_items self threshold)) = _stock_data self.
Proof.
  intros Hd Hl. unfold check_low_items. rewrite Hd, Hl.
  destruct names; split; try reflexivity; exact Hd.
Qed.

(** C6, as the code has it.  On a store of records under distinct names,
    each a dictionary whose quantity is an [int] (or a [bool]) or is
    missing (read as 0), [check_low_items] returns exactly the names whose
    quantity is strictly less than the threshold, in the order of the
    store, and leaves the store as it was. *)
Theorem check_low_items_spec (self : InventoryManager) (d : Dict.t pyval)
    (threshold : Z) :
  _stock_data self = PDict d ->
  well_formed (PDict d) = true ->
  fst (check_low_items self threshold)
    = Return (filter (below self threshold) (Dict.keys d)) /\
  _stock_data (snd (check_low_items self threshold)) = _stock_data self.
Proof.
  intros Hd Hwf. apply (check_low_items_returns self d); [exact Hd|].
  now apply low_items_filter.
Qed.

Lemma check_low_items_spec_witness :
  well_formed (PDict pen_notebook) = true /\
  fst (check_low_items (set_stock init (PDict pen_notebook)) 8)
    = Return ["Notebook"].
Proof.
  split; [reflexivity|].
  apply (check_low_items_spec (set_stock init (PDict pen_notebook))
           pen_notebook 8); reflexivity.
Defined.

(** C6, as stated, fails: after a load of a document in which Pen has the
    string "many" for quantity, [check_low_items] raises [TypeError]
    instead of returning the names below the threshold. *)
Lemma check_low_items_string_quantity_raises :
  let self :=
    fst (run (J := RefJSON.json) [LoadData "stock.json"]
           (init, string_quantity_stock)) in
  get_quantity self "Notebook" = Return (PInt 7) /\
  fst (check_low_items self 8) = Raise TypeError.
Proof. vm_compute. split; reflexivity. Qed.

Lemma low_items_total (d : Dict.t pyval) (threshold : Z) :
  forallb (fun kv => int_quantity (snd kv)) d = true ->
  exists names, low_items d threshold = Return names.
Proof.
  induction d as [|[name details] d IH]; simpl; [now eexists|].
  intros Hall. apply andb_true_iff in Hall as [Hi Hall].
  destruct (IH Hall) as (names & ->).
  destruct details as [| | | | |r]; try discriminate. simpl in *.
  destruct (Dict.get r "quantity") as [[| | | | |]|]; try discriminate;
    simpl; now eexists.
Qed.

Lemma low_items_includes (d : Dict.t pyval) (threshold : Z)
    (names : list string) (name : string) (details : pyval) :
  low_items d threshold = Return names ->
  Dict.get d name = Some details ->
  (q <- py_get details "quantity" (PInt 0) ;; py_lt q threshold)
    = Return true ->
  In name names.
Proof.
  revert names. induction d as [|[k v] d IH]; intros names; simpl;
    [discriminate|].
  intros Hl Hg Hlow. unfold bind in *.
  destruct (py_get v "quantity" (PInt 0)) as [q|e] eqn:Hq; [|discriminate].
  destruct (py_lt q threshold) as [b|e] eqn:Hb; [|discriminate].
  destruct (low_items d threshold) as [others|e]; [|discriminate].
  injection Hl as <-.
  destruct (String.eqb name k) eqn:E.
  - apply String.eqb_eq in E. subst k. injection Hg as ->.
    rewrite Hq, Hb in Hlow. injection Hlow as ->. now left.
  - assert (Hin : In name others) by (now apply (IH others)).
    destruct b; [now right | exact Hin].
Qed.

(** C10, as the code has it.  A record without a ["quantity"] entry counts
    as holding 0.  [get_quantity] of its name returns 0, whatever the other
    records are.  Where every record of the store is a dictionary whose
    quantity, if it has one, is an [int] (or a [bool]), [check_low_items]
    returns, and its list contains the name whenever the threshold is
    positive (and, the names being distinct, only then). *)
Theorem missing_quantity_defaults (self : InventoryManager)
    (d r : Dict.t pyval) (item_name : string) (threshold : Z) :
  _stock_data self = PDict d ->
  Dict.get d item_name = Some (PDict r) ->
  Dict.get r "quantity" = None ->
  get_quantity self item_name = Return (PInt 0) /\
  (forallb (fun kv => int_quantity (snd kv)) d = true ->
   exists names,
     fst (check_low_items self threshold) = Return names /\
     (0 < threshold -> In item_name names) /\
     (unique (Dict.keys d) = true -> In item_name names -> 0 < threshold)).
Proof.
  intros Hd Hg Hq.
  assert (Hzero : get_quantity self item_name = Return (PInt 0)).
  { unfold get_quantity. rewrite Hd. simpl. rewrite Hg. simpl. now rewrite Hq. }
  split; [exact Hzero|].
  intros Hall. destruct (low_items_total d threshold Hall) as (names & Hl).
  exists names. split; [|split].
  - now apply (check_low_items_returns self d).
  - intros Ht. apply (low_items_includes d threshold names item_name (PDict r));
      [exact Hl | exact Hg |].
    simpl. rewrite Hq. simpl. f_equal. now apply Z.ltb_lt.
  - intros Hu Hin.
    assert (Hwf : well_formed (PDict d) = true).
    { simpl. now rewrite Hu, Hall. }
    rewrite (low_items_filter self d threshold Hd Hwf) in Hl.
    injection Hl as <-. apply filter_In in Hin as [_ Hb].
    unfold below in Hb. rewrite Hzero in Hb. simpl in Hb.
    now apply Z.ltb_lt.
Qed.

Lemma missing_quantity_defaults_witness :
  get_quantity (set_stock init (PDict pen_without_quantity)) "Pen"
    = Return (PInt 0) /\
  exists names,
    fst (check_low_items (set_stock init (PDict pen_without_quantity)) 1)
      = Return names /\
    (0 < 1 -> In "Pen" names).
Proof.
  destruct (missing_quantity_defaults
              (set_stock init (PDict pen_without_quantity))
              pen_without_quantity [("tags", str_list ["stationery"])] "Pen" 1)
    as (Hzero & Hcheck); [reflexivity | reflexivity | reflexivity |].
  split; [exact Hzero|].
  destruct Hcheck as (names & Hret & Hin & _); [reflexivity|].
  exists names. split; [exact Hret | exact Hin].
Defined.

(** C10, as stated, fails: after a load of a document in which Pen has no
    quantity and Ink has a string for one, [get_quantity] of Pen returns 0
    but [check_low_items] with the positive threshold 1 raises [TypeError]
    instead of returning a list that contains Pen. *)
Lemma check_low_items_beside_missing_quantity_raises :
  let self :=
    fst (run (J := RefJSON.json) [LoadData "stock.json"] (init, partial_stock)) in
  get_quantity self "Pen" = Return (PInt 0) /\
  fst (check_low_items self 1) = Raise TypeError.
Proof. vm_compute. split; reflexivity. Qed.

(** ** Non-negative quantities along a run *)

Lemma nonneg_clear (self : InventoryManager) :
  nonneg_quantities (_stock_data self) = true ->
  nonneg_quantities (_stock_data (snd (clear self))) = true.
Proof.
  intros Hn. unfold clear.
  destruct (_stock_data self) eqn:E; simpl; rewrite ?E; reflexivity.
Qed.

Lemma nonneg_add_item (self : InventoryManager) (item_name : string)
    (tags : option (list string)) (quantity : Z) :
  nonneg_quantities (_stock_data self) = true ->
  nonneg_quantities (_stock_data (snd (add_item self item_name tags quantity)))
    = true.
Proof.
  intros Hn. unfold add_item.
  destruct (quantity <? 0) eqn:Hq; [exact Hn|].
  destruct (_stock_data self) as [| | | | |d] eqn:E; simpl; rewrite ?E; auto.
  apply DictFacts.forallb_set; auto.
  simpl. apply Z.leb_le. apply Z.ltb_ge in Hq. exact Hq.
Qed.

Lemma nonneg_remove_item (self : InventoryManager) (item_name : string) :
  nonneg_quantities (_stock_data self) = true ->
  nonneg_quantities (_stock_data (snd (remove_item self item_name))) = true.
Proof.
  intros Hn. unfold remove_item.
  destruct (_stock_data self) as [| | | | |d] eqn:E; simpl; rewrite ?E; auto.
  destruct (Dict.mem d item_name); simpl; rewrite ?E; auto.
  now apply DictFacts.forallb_del.
Qed.

Lemma stock_print_items (items : list (string * pyval)) (self : InventoryManager) :
  _stock_data (snd (print_items self items)) = _stock_data self.
Proof.
  revert self. induction items as [|[name details] items IH]; intros self;
    simpl; [reflexivity|].
  destruct (py_getitem details "quantity"); [|reflexivity].
  destruct (py_getitem details "tags"); [|reflexivity].
  now rewrite IH.
Qed.

Lemma stock_print_data (self : InventoryManager) :
  _stock_data (snd (print_data self)) = _stock_data self.
Proof.
  unfold print_data.
  destruct (negb (truthy (_stock_data self))); [reflexivity|].
  cbn [log _stock_data].
  destruct (_stock_data self) eqn:E; try (simpl; exact E).
  rewrite stock_print_items. exact E.
Qed.

Lemma stock_check_low_items (self : InventoryManager) (threshold : Z) :
  _stock_data (snd (check_low_items self threshold)) = _stock_data self.
Proof.
  unfold check_low_items.
  destruct (_stock_data self) as [| | | | |d] eqn:E; simpl; rewrite ?E; auto.
  destruct (low_items d threshold) as [[|n l]|e]; simpl; now rewrite E.
Qed.

Section RunFacts.
Context `{J : JSON}.

Lemma stock_save_data (self : InventoryManager) (fs : filesystem)
    (filename : string) :
  _stock_data (snd (fst (save_data self fs filename))) = _stock_data self.
Proof.
  unfold save_data.
  now destruct (write_text fs filename (json_dumps (_stock_data self))).
Qed.

Lemma nonneg_load_data (self : InventoryManager) (fs : filesystem)
    (filename : string) :
  nonneg_quantities (_stock_data self) = true ->
  match document fs filename with
  | Some v => nonneg_quantities v
  | None => true
  end = true ->
  nonneg_quantities (_stock_data (snd (load_data self fs filename))) = true.
Proof.
  intros Hn Hdoc. unfold load_data, document in *.
  destruct (exists_ fs filename); simpl in *.
  - destruct (read_text fs filename) as [text|[]]; simpl;
      try exact Hn; try (now apply nonneg_clear).
    destruct (json_loads text); simpl; [exact Hdoc | now apply nonneg_clear].
  - now apply nonneg_clear.
Qed.

Lemma nonneg_step (w : world) (o : op) :
  nonneg_quantities (_stock_data (fst w)) = true ->
  loads_nonneg [o] w = true ->
  nonneg_quantities (_stock_data (fst (step w o))) = true.
Proof.
  destruct w as [self fs]. intros Hn Hl. simpl in Hl.
  rewrite andb_true_r in Hl.
  destruct o; simpl.
  - now apply nonneg_add_item.
  - now apply nonneg_remove_item.
  - exact Hn.
  - now apply nonneg_load_data.
  - pose proof (stock_save_data self fs filename) as Hs.
    destruct (save_data self fs filename) as [[r self'] fs']. simpl in *.
    now rewrite Hs.
  - now rewrite stock_print_data.
  - now rewrite stock_check_low_items.
Qed.

(** C2, as the code has it.  Started from a store without negative
    quantities (the empty store of [__init__] is one), every sequence of
    calls ends in a store without negative quantities, provided each
    document that a [load_data] of the sequence installs has none:
    [load_data] installs the document as it is. *)
Theorem nonneg_quantities_preserved (ops : list op) (w : world) :
  nonneg_quantities (_stock_data (fst w)) = true ->
  loads_nonneg ops w = true ->
  nonneg_quantities (_stock_data (fst (run ops w))) = true.
Proof.
  revert w. induction ops as [|o ops IH]; intros w Hn Hl; [exact Hn|].
  cbn [loads_nonneg] in Hl. apply andb_true_iff in Hl as [Ho Hl].
  cbn [run fold_left]. apply IH; [|exact Hl].
  apply nonneg_step; [exact Hn|].
  cbn [loads_nonneg]. now rewrite Ho.
Qed.

End RunFacts.

Lemma nonneg_quantities_preserved_witness :
  nonneg_quantities (_stock_data init) = true /\
  loads_nonneg (J := RefJSON.json) main_then_reload (init, empty_dir) = true /\
  nonneg_quantities
    (_stock_data
       (fst (run (J := RefJSON.json) main_then_reload (init, empty_dir))))
    = true.
Proof.
  split; [reflexivity|]. split; [vm_compute; reflexivity|].
  apply (nonneg_quantities_preserved (J := RefJSON.json)
           main_then_reload (init, empty_dir));
    [reflexivity | vm_compute; reflexivity].
Defined.

(** C2, as stated, fails: one [load_data] from the initial store leaves a
    record with quantity -5, which [get_quantity] then returns. *)
Lemma load_installs_negative_quantity :
  let self :=
    fst (run (J := RefJSON.json) [LoadData "stock.json"] (init, negative_stock)) in
  _stock_data self
    = PDict [("Pen", PDict [("quantity", PInt (-5));
                            ("tags", str_list ["stationery"])])] /\
  nonneg_quantities (_stock_data self) = false /\
  get_quantity self "Pen" = Return (PInt (-5)).
Proof. vm_compute. repeat split. Qed.

(** ** Saving and loading *)

Section PersistenceFacts.
Context `{J : JSON}.


(** What [load_data] does on a store that is a dictionary, case by case:
    a missing file, a file that cannot be opened and a text that is not
    JSON each empty the store and return; a document replaces the store. *)
Lemma load_data_handled (self : InventoryManager) (fs : filesystem)
    (filename : string) :
  is_dict (_stock_data self) = true ->
  (exists_ fs filename = false \/
   read_text fs filename = Raise OSError \/
   (exists text, read_text fs filename = Return text /\ json_loads text = None) ->
   fst (load_data self fs filename) = Return tt /\
   _stock_data (snd (load_data self fs filename)) = PDict []) /\
  (forall text data,
     exists_ fs filename = true ->
     read_text fs filename = Return text -> json_loads text = Some data ->
     fst (load_data self fs filename) = Return tt /\
     _stock_data (snd (load_data self fs filename)) = data).
Proof.
  intros Hd. apply is_dict_inv in Hd as [d Hd].
  assert (Hclear : forall l m a,
             clear (log self l m a)
             = (Return tt, set_stock (log self l m a) (PDict []))).
  { intros l m a. unfold clear. simpl. now rewrite Hd. }
  split.
  - intros Hcase. unfold load_data.
    destruct (exists_ fs filename) eqn:Hex; simpl; [|now rewrite Hclear].
    destruct Hcase as [Hno|[Hos|(text & Hr & Hj)]]; [discriminate| |].
    + rewrite Hos. now rewrite Hclear.
    + rewrite Hr, Hj. now rewrite Hclear.
  - intros text data Hex Hr Hj. unfold load_data.
    rewrite Hex, Hr, Hj. simpl. split; reflexivity.
Qed.

(** C5, where the code departs from it.  On a file whose bytes are not
    UTF-8, [load_data] raises [UnicodeDecodeError] to its caller and leaves
    the store and the log as they were, whatever the store holds and
    whatever the [json] module is. *)
Theorem load_data_undecodable_raises (self : InventoryManager) :
  load_data self undecodable_stock "stock.json"
    = (Raise UnicodeDecodeError, self).
Proof. reflexivity. Qed.

End PersistenceFacts.

(** The reset of a failed load needs a store that has [clear]: after a
    load of the document [5], a load of a missing file raises
    [AttributeError]. *)
Lemma load_data_scalar_store_raises :
  let self := snd (load_data (J := RefJSON.json) init scalar_stock "stock.json") in
  _stock_data self = PInt 5 /\
  fst (load_data (J := RefJSON.json) self scalar_stock "backup.json")
    = Raise AttributeError.
Proof. vm_compute. split; reflexivity. Qed.

(** * Further properties *)

(** ** More on the dictionary *)
Module DictMore.
Section Facts.
Context {V : Type}.
Implicit Types (d : Dict.t V) (k : string) (v : V).

Lemma set_absent d k v :
  Dict.mem d k = false -> Dict.set d k v = (d ++ [(k, v)])%list.
Proof.
  unfold Dict.mem. induction d as [|[k' v'] d IH]; simpl; [reflexivity|].
  destruct (String.eqb k k'); [discriminate|].
  intros Hm. now rewrite IH.
Qed.

Lemma del_absent d k : Dict.mem d k = false -> Dict.del d k = d.
Proof.
  unfold Dict.mem. induction d as [|[k' v'] d IH]; simpl; [reflexivity|].
  destruct (String.eqb k k'); [discriminate|].
  intros Hm. now rewrite IH.
Qed.

Lemma del_app d d' k :
  Dict.del (d ++ d')%list k = (Dict.del d k ++ Dict.del d' k)%list.
Proof.
  induction d as [|[k' v'] d IH]; simpl; [reflexivity|].
  destruct (String.eqb k k'); simpl; now rewrite IH.
Qed.

Lemma set_set d k v v' : Dict.set (Dict.set d k v) k v' = Dict.set d k v'.
Proof.
  induction d as [|[k' v0] d IH]; simpl.
  - now rewrite String.eqb_refl.
  - destruct (String.eqb k k') eqn:E; simpl; rewrite E; [reflexivity|].
    now rewrite IH.
Qed.

Lemma keys_del d k :
  Dict.keys (Dict.del d k)
    = filter (fun k' => negb (String.eqb k k')) (Dict.keys d).
Proof.
  induction d as [|[k' v'] d IH]; simpl; [reflexivity|].
  destruct (String.eqb k k'); simpl; now rewrite IH.
Qed.

Lemma length_set d k v :
  List.length (Dict.set d k v)
    = (List.length d + if Dict.mem d k then 0 else 1)%nat.
Proof.
  unfold Dict.mem. induction d as [|[k' v'] d IH]; simpl; [reflexivity|].
  destruct (String.eqb k k'); simpl; [lia|].
  rewrite IH. now destruct (Dict.get d k).
Qed.
End Facts.
End DictMore.

(** ** What a call leaves alone *)

Lemma eqb_false_neq (a b : string) : String.eqb a b = false -> a <> b.
Proof. intros E. now apply String.eqb_neq. Qed.

(** X1.  [add_item] under one name never changes what [get_quantity]
    answers for another name, whatever the store holds and whether the add
    is accepted, rejected or raises. *)
Theorem add_item_frame (self : InventoryManager) (item_name other : string)
    (tags : option (list string)) (quantity : Z) :
  String.eqb other item_name = false ->
  get_quantity (snd (add_item self item_name tags quantity)) other
    = get_quantity self other.
Proof.
  intros Hne. apply eqb_false_neq in Hne. unfold add_item.
  destruct (quantity <? 0); [reflexivity|].
  destruct (_stock_data self) as [| | | | |d] eqn:E; try reflexivity.
  unfold get_quantity. simpl. rewrite E. simpl.
  now rewrite DictFacts.get_set_other.
Qed.

Lemma add_item_frame_witness :
  String.eqb "Notebook" "Pen" = false /\
  get_quantity (snd (add_item stocked "Pen" None 99)) "Notebook"
    = Return (PInt 7).
Proof.
  split; [reflexivity|].
  rewrite (add_item_frame stocked "Pen" "Notebook" None 99); reflexivity.
Defined.

(** X2.  An accepted [add_item] under a name that is not a key puts the new
    record after all the others: the store is the old one followed by the
    new entry. *)
Theorem add_item_new_goes_last (self : InventoryManager) (d : Dict.t pyval)
    (item_name : string) (tags : option (list string)) (quantity : Z) :
  _stock_data self = PDict d ->
  Dict.mem d item_name = false ->
  0 <= quantity ->
  _stock_data (snd (add_item self item_name tags quantity))
    = PDict (d ++ [(item_name,
                    PDict [("quantity", PInt quantity);
                           ("tags", str_list (tags_or_empty tags))])])%list.
Proof.
  intros Hd Hm Hq.
  rewrite (add_item_accepts self item_name tags quantity d Hd Hq). simpl.
  now rewrite DictMore.set_absent.
Qed.

Lemma add_item_new_goes_last_witness :
  Dict.keys
    (match _stock_data (snd (add_item stocked "Eraser" None 2)) with
     | PDict d => d
     | _ => []
     end)
    = ["Pen"; "Notebook"; "Eraser"].
Proof.
  rewrite (add_item_new_goes_last stocked pen_notebook "Eraser" None 2);
    [reflexivity | reflexivity | reflexivity | lia].
Defined.

(** X3.  An accepted [add_item] followed by [remove_item] of the same name
    gives back the store as it was, when the name was not a key before. *)
Theorem add_then_remove_restores (self : InventoryManager) (d : Dict.t pyval)
    (item_name : string) (tags : option (list string)) (quantity : Z) :
  _stock_data self = PDict d ->
  Dict.mem d item_name = false ->
  0 <= quantity ->
  _stock_data
    (snd (remove_item (snd (add_item self item_name tags quantity)) item_name))
    = _stock_data self.
Proof.
  intros Hd Hm Hq.
  rewrite (add_item_accepts self item_name tags quantity d Hd Hq).
  unfold remove_item. cbn [snd log set_stock _stock_data].
  assert (Hin : Dict.mem (Dict.set d item_name
                   (PDict [("quantity", PInt quantity);
                           ("tags", str_list (tags_or_empty tags))]))
                  item_name = true).
  { unfold Dict.mem. now rewrite DictFacts.get_set_same. }
  rewrite Hin. cbn [snd log set_stock _stock_data].
  rewrite DictMore.set_absent by exact Hm.
  rewrite DictMore.del_app, (DictMore.del_absent d item_name Hm). simpl.
  rewrite String.eqb_refl. rewrite app_nil_r. now rewrite Hd.
Qed.

Lemma add_then_remove_restores_witness :
  _stock_data (snd (remove_item (snd (add_item stocked "Eraser" None 2)) "Eraser"))
    = PDict pen_notebook.
Proof.
  rewrite (add_then_remove_restores stocked pen_notebook "Eraser" None 2);
    [reflexivity | reflexivity | reflexivity | lia].
Defined.

Lemma stock_add_item (self : InventoryManager) (item_name : string)
    (tags : option (list string)) (quantity : Z) :
  _stock_data (snd (add_item self item_name tags quantity))
    = if quantity <? 0 then _stock_data self
      else match _stock_data self with
           | PDict d =>
               PDict (Dict.set d item_name
                        (PDict [("quantity", PInt quantity);
                                ("tags", str_list (tags_or_empty tags))]))
           | v => v
           end.
Proof.
  unfold add_item. destruct (quantity <? 0); [reflexivity|].
  destruct (_stock_data self) eqn:E; simpl; rewrite ?E; reflexivity.
Qed.

(** X4.  Of two [add_item] calls under the same name, an accepted second
    one decides the store: the first call might as well not have
    happened. *)
Theorem add_item_last_wins (self : InventoryManager) (item_name : string)
    (tags1 tags2 : option (list string)) (quantity1 quantity2 : Z) :
  0 <= quantity2 ->
  _stock_data
    (snd (add_item (snd (add_item self item_name tags1 quantity1))
            item_name tags2 quantity2))
    = _stock_data (snd (add_item self item_name tags2 quantity2)).
Proof.
  intros Hq2. rewrite !stock_add_item.
  destruct (quantity2 <? 0) eqn:E2; [apply Z.ltb_lt in E2; lia|].
  destruct (quantity1 <? 0); [reflexivity|].
  destruct (_stock_data self); try reflexivity.
  now rewrite DictMore.set_set.
Qed.

Lemma add_item_last_wins_witness :
  _stock_data
    (snd (add_item (snd (add_item init "Pen" (Some ["blue"]) 15))
            "Pen" None 3))
    = PDict [("Pen", PDict [("quantity", PInt 3); ("tags", str_list [])])].
Proof.
  rewrite (add_item_last_wins init "Pen" (Some ["blue"]) None 15 3);
    [reflexivity | lia].
Defined.

(** X5.  [remove_item] of one name never changes what [get_quantity]
    answers for another name, whatever the store holds. *)
Theorem remove_item_frame (self : InventoryManager) (item_name other : string) :
  String.eqb other item_name = false ->
  get_quantity (snd (remove_item self item_name)) other
    = get_quantity self other.
Proof.
  intros Hne. apply eqb_false_neq in Hne. unfold remove_item.
  destruct (_stock_data self) as [| | | | |d] eqn:E; try reflexivity.
  destruct (Dict.mem d item_name); [|reflexivity].
  unfold get_quantity. simpl. rewrite E. simpl.
  now rewrite DictFacts.get_del_other.
Qed.

Lemma remove_item_frame_witness :
  String.eqb "Notebook" "Pen" = false /\
  get_quantity (snd (remove_item stocked "Pen")) "Notebook" = Return (PInt 7).
Proof.
  split; [reflexivity|].
  rewrite (remove_item_frame stocked "Pen" "Notebook"); reflexivity.
Defined.

(** X6.  [remove_item] keeps the other names in their order: the keys
    after the call are the keys before without the removed name. *)
Theorem remove_item_keeps_order (self : InventoryManager) (d : Dict.t pyval)
    (item_name : string) :
  _stock_data self = PDict d ->
  exists d',
    _stock_data (snd (remove_item self item_name)) = PDict d' /\
    Dict.keys d'
      = filter (fun k => negb (String.eqb item_name k)) (Dict.keys d).
Proof.
  intros Hd. unfold remove_item. rewrite Hd.
  destruct (Dict.mem d item_name) eqn:Hm; simpl.
  - eexists. split; [reflexivity|]. apply DictMore.keys_del.
  - exists d. split; [exact Hd|].
    rewrite <- DictMore.keys_del. now rewrite DictMore.del_absent.
Qed.

Lemma remove_item_keeps_order_witness :
  exists d',
    _stock_data (snd (remove_item stocked "Pen")) = PDict d' /\
    Dict.keys d' = ["Notebook"].
Proof.
  destruct (remove_item_keeps_order stocked pen_notebook "Pen")
    as (d' & H1 & H2); [reflexivity|].
  exists d'. split; [exact H1 | exact H2].
Defined.

(** ** When a call raises *)

(** X7.  On a store that is not a dictionary (a load of a JSON array or
    scalar leaves one), an accepted [add_item] and [remove_item] raise
    [TypeError], [get_quantity] and [check_low_items] raise
    [AttributeError], and none of them changes the store or logs. *)
Theorem non_dict_store_raises (self : InventoryManager) :
  is_dict (_stock_data self) = false ->
  (forall item_name tags quantity, 0 <= quantity ->
     add_item self item_name tags quantity = (Raise TypeError, self)) /\
  (forall item_name, remove_item self item_name = (Raise TypeError, self)) /\
  (forall item_name, get_quantity self item_name = Raise AttributeError) /\
  (forall threshold,
     check_low_items self threshold = (Raise AttributeError, self)).
Proof.
  intros Hd. repeat apply conj.
  - intros item_name tags quantity Hq. unfold add_item.
    destruct (quantity <? 0) eqn:E; [apply Z.ltb_lt in E; lia|].
    destruct (_stock_data self); try reflexivity. discriminate.
  - intros item_name. unfold remove_item.
    destruct (_stock_data self); try reflexivity. discriminate.
  - intros item_name. unfold get_quantity.
    destruct (_stock_data self); try reflexivity. discriminate.
  - intros threshold. unfold check_low_items.
    destruct (_stock_data self); try reflexivity. discriminate.
Qed.

Lemma non_dict_store_raises_witness :
  is_dict (_stock_data (set_stock init (PList []))) = false /\
  add_item (set_stock init (PList [])) "Pen" None 10
    = (Raise TypeError, set_stock init (PList [])) /\
  get_quantity (set_stock init (PList [])) "Pen" = Raise AttributeError.
Proof.
  split; [reflexivity|].
  destruct (non_dict_store_raises (set_stock init (PList [])))
    as (Hadd & _ & Hget & _); [reflexivity|].
  split; [apply Hadd; lia | apply Hget].
Defined.

(** X8.  [get_quantity] raises exactly when the store is not a dictionary
    or the record under the name is not one, and what it raises is
    [AttributeError]. *)
Theorem get_quantity_raises_iff (self : InventoryManager) (item_name : string) :
  (returns (get_quantity self item_name) = false <->
   is_dict (_stock_data self) = false \/
   exists d v, _stock_data self = PDict d /\
               Dict.get d item_name = Some v /\ is_dict v = false) /\
  (returns (get_quantity self item_name) = false ->
   get_quantity self item_name = Raise AttributeError).
Proof.
  unfold get_quantity.
  destruct (_stock_data self) as [| | | | |d] eqn:E; simpl;
    try (split; [split; [intros _; now left | reflexivity] | reflexivity]).
  destruct (Dict.get d item_name) as [v|] eqn:Hg; simpl.
  - destruct v; simpl;
      try (split; [split; [intros _; right; do 2 eexists;
                             repeat split; [exact Hg | reflexivity]
                          | reflexivity] | reflexivity]).
    split; [split|]; try discriminate.
    intros [Hf|(d' & v & [= <-] & Hv & Hf)]; [discriminate|].
    rewrite Hg in Hv. injection Hv as <-. discriminate.
  - split; [split|]; try discriminate.
    intros [Hf|(d' & v & [= <-] & Hv & _)]; [discriminate|].
    rewrite Hg in Hv. discriminate.
Qed.

Lemma get_quantity_raises_iff_witness :
  get_quantity (set_stock init (PDict [("Pen", PInt 5)])) "Pen"
    = Raise AttributeError.
Proof.
  apply (get_quantity_raises_iff (set_stock init (PDict [("Pen", PInt 5)])) "Pen").
  reflexivity.
Defined.

Lemma low_items_returns (d : Dict.t pyval) (threshold : Z) :
  returns (low_items d threshold)
    = forallb (fun kv => comparable_record (snd kv)) d.
Proof.
  induction d as [|[name details] d IH]; [reflexivity|].
  cbn [low_items forallb snd]. rewrite <- IH.
  destruct details as [| | | | |r]; try reflexivity.
  simpl. destruct (Dict.get r "quantity") as [[| | | | |]|]; simpl;
    try reflexivity;
    now destruct (low_items d threshold).
Qed.

Lemma check_low_items_fst (self : InventoryManager) (threshold : Z) :
  fst (check_low_items self threshold)
    = match _stock_data self with
      | PDict d => low_items d threshold
      | _ => Raise AttributeError
      end.
Proof.
  unfold check_low_items.
  destruct (_stock_data self) as [| | | | |d]; try reflexivity.
  now destruct (low_items d threshold) as [[|n l]|e].
Qed.

(** X9.  On a store that is a dictionary, [check_low_items] returns when
    every record is a dictionary whose quantity, if it has one, is an
    [int] or a [bool]; and it raises as soon as one record is not a
    dictionary or has [None], a string, a list or a dictionary for
    quantity. *)
Theorem check_low_items_returns_or_raises (self : InventoryManager)
    (d : Dict.t pyval) (threshold : Z) :
  _stock_data self = PDict d ->
  (forallb (fun kv => comparable_record (snd kv)) d = true ->
   returns (fst (check_low_items self threshold)) = true) /\
  (existsb (fun kv => uncomparable_record (snd kv)) d = true ->
   returns (fst (check_low_items self threshold)) = false).
Proof.
  intros Hd. rewrite check_low_items_fst, Hd, low_items_returns.
  split; [intros ->; reflexivity|].
  intros Hex. apply existsb_exists in Hex as (kv & Hin & Hu).
  apply not_true_is_false. intros Hall.
  rewrite forallb_forall in Hall. specialize (Hall kv Hin).
  destruct (snd kv) as [| | | | |r]; try discriminate. simpl in *.
  now destruct (Dict.get r "quantity") as [[| | | | |]|].
Qed.

Lemma check_low_items_returns_or_raises_witness :
  returns
    (fst (check_low_items
            (set_stock init
               (PDict [("Pen", PDict [("quantity", PStr "many")]);
                       ("Notebook", PDict [("quantity", PInt 7)])])) 8))
    = false /\
  returns (fst (check_low_items stocked 8)) = true.
Proof.
  split.
  - apply (check_low_items_returns_or_raises _
             [("Pen", PDict [("quantity", PStr "many")]);
              ("Notebook", PDict [("quantity", PInt 7)])] 8); reflexivity.
  - apply (check_low_items_returns_or_raises stocked pen_notebook 8);
      reflexivity.
Defined.

Lemma low_items_monotone (d : Dict.t pyval) (t1 t2 : Z) (names1 : list string) :
  t1 <= t2 ->
  low_items d t1 = Return names1 ->
  exists names2, low_items d t2 = Return names2 /\ incl names1 names2.
Proof.
  intros Ht. revert names1.
  induction d as [|[name details] d IH]; intros names1; simpl.
  - intros [= <-]. exists []. split; [reflexivity | apply incl_refl].
  - destruct (py_get details "quantity" (PInt 0)) as [q|e]; simpl;
      [|discriminate].
    assert (Hlt : forall b1, py_lt q t1 = Return b1 ->
               exists b2, py_lt q t2 = Return b2 /\ (b1 = true -> b2 = true)).
    { intros b1. destruct q; simpl; try discriminate; intros [= <-];
        eexists; (split; [reflexivity|]);
        rewrite !Z.ltb_lt; lia. }
    destruct (py_lt q t1) as [b1|e]; simpl; [|discriminate].
    destruct (Hlt b1 eq_refl) as (b2 & -> & Hb). simpl.
    destruct (low_items d t1) as [l1|e]; simpl; [|discriminate].
    destruct (IH l1 eq_refl) as (l2 & -> & Hincl). simpl.
    intros [= <-]. eexists. split; [reflexivity|].
    destruct b1.
    + rewrite (Hb eq_refl). intros x [->|Hx]; [now left | right; auto].
    + destruct b2; [apply incl_tl|]; exact Hincl.
Qed.

(** X10.  Raising the threshold never loses a name: if [check_low_items]
    returns at one threshold, it returns at every larger one, with a list
    that contains every name of the first. *)
Theorem check_low_items_monotone (self : InventoryManager) (t1 t2 : Z)
    (names1 : list string) :
  t1 <= t2 ->
  fst (check_low_items self t1) = Return names1 ->
  exists names2,
    fst (check_low_items self t2) = Return names2 /\ incl names1 names2.
Proof.
  intros Ht. rewrite !check_low_items_fst.
  destruct (_stock_data self) as [| | | | |d]; try discriminate.
  now apply low_items_monotone.
Qed.

Lemma check_low_items_monotone_witness :
  exists names2,
    fst (check_low_items stocked 16) = Return names2 /\
    incl ["Notebook"] names2.
Proof.
  apply (check_low_items_monotone stocked 8 16 ["Notebook"]);
    [lia | reflexivity].
Defined.

(** ** Regular stores *)

Lemma regular_well_formed (v : pyval) :
  regular v = true -> well_formed v = true.
Proof.
  destruct v as [| | | | |d]; try discriminate. simpl.
  intros Hr. apply andb_true_iff in Hr as [Hu Hrec]. rewrite Hu. simpl.
  rewrite forallb_forall in *. intros kv Hin. specialize (Hrec kv Hin).
  destruct (snd kv) as [| | | | |r]; try discriminate. simpl in *.
  now destruct (Dict.get r "quantity") as [[| | | | |]|].
Qed.

Lemma regular_complete (d : Dict.t pyval) :
  regular (PDict d) = true ->
  forallb (fun kv => complete_record (snd kv)) d = true.
Proof.
  simpl. intros Hr. apply andb_true_iff in Hr as [_ Hrec].
  rewrite forallb_forall in *. intros kv Hin. specialize (Hrec kv Hin).
  destruct (snd kv) as [| | | | |r]; try discriminate. simpl in *.
  unfold Dict.mem at 1.
  destruct (Dict.get r "quantity") as [[| |q| | |]|]; try discriminate.
  now apply andb_true_iff in Hrec as [_ ->].
Qed.

Lemma regular_comparable (d : Dict.t pyval) :
  regular (PDict d) = true ->
  forallb (fun kv => comparable_record (snd kv)) d = true.
Proof.
  simpl. intros Hr. apply andb_true_iff in Hr as [_ Hrec].
  rewrite forallb_forall in *. intros kv Hin. specialize (Hrec kv Hin).
  destruct (snd kv) as [| | | | |r]; try discriminate. simpl in *.
  now destruct (Dict.get r "quantity") as [[| | | | |]|].
Qed.

Lemma regular_add_item (self : InventoryManager) (item_name : string)
    (tags : option (list string)) (quantity : Z) :
  regular (_stock_data self) = true ->
  regular (_stock_data (snd (add_item self item_name tags quantity))) = true.
Proof.
  intros Hr. rewrite stock_add_item.
  destruct (quantity <? 0) eqn:Hq; [exact Hr|].
  destruct (_stock_data self) as [| | | | |d]; try discriminate.
  simpl in *. apply andb_true_iff in Hr as [Hu Hrec].
  rewrite unique_set by exact Hu. simpl.
  apply DictFacts.forallb_set; auto.
  simpl. apply Z.ltb_ge in Hq. apply Z.leb_le in Hq. now rewrite Hq.
Qed.

Lemma stock_remove_item (self : InventoryManager) (item_name : string) :
  _stock_data (snd (remove_item self item_name))
    = match _stock_data self with
      | PDict d => PDict (Dict.del d item_name)
      | v => v
      end.
Proof.
  unfold remove_item.
  destruct (_stock_data self) as [| | | | |d] eqn:E; simpl; rewrite ?E;
    try reflexivity.
  destruct (Dict.mem d item_name) eqn:Hm; simpl; [reflexivity|].
  now rewrite E, DictMore.del_absent.
Qed.

Lemma regular_remove_item (self : InventoryManager) (item_name : string) :
  regular (_stock_data self) = true ->
  regular (_stock_data (snd (remove_item self item_name))) = true.
Proof.
  intros Hr. rewrite stock_remove_item.
  destruct (_stock_data self) as [| | | | |d]; try discriminate.
  simpl in *. apply andb_true_iff in Hr as [Hu Hrec].
  rewrite unique_del by exact Hu. simpl.
  now apply DictFacts.forallb_del.
Qed.

(** On a regular store [get_quantity] returns a non-negative [int] for
    every name, key or not. *)
Lemma regular_store_quantity (self : InventoryManager) (item_name : string) :
  regular (_stock_data self) = true ->
  exists q, get_quantity self item_name = Return (PInt q) /\ 0 <= q.
Proof.
  intros Hr. unfold get_quantity.
  destruct (_stock_data self) as [| | | | |d]; try discriminate.
  simpl in *. apply andb_true_iff in Hr as [_ Hrec].
  destruct (Dict.get d item_name) as [v|] eqn:Hg; simpl.
  - apply DictFacts.get_in in Hg. rewrite forallb_forall in Hrec.
    specialize (Hrec _ Hg). simpl in Hrec.
    destruct v as [| | | | |r]; try discriminate. simpl in *.
    destruct (Dict.get r "quantity") as [[| |q| | |]|]; try discriminate.
    apply andb_true_iff in Hrec as [Hq _]. apply Z.leb_le in Hq.
    now exists q.
  - exists 0. split; [reflexivity | lia].
Qed.

Lemma regular_below_nonpositive (self : InventoryManager) (threshold : Z)
    (name : string) :
  regular (_stock_data self) = true -> threshold <= 0 ->
  below self threshold name = false.
Proof.
  intros Hr Ht. unfold below.
  destruct (regular_store_quantity self name Hr) as (q & -> & Hq).
  apply Z.ltb_ge. lia.
Qed.

Lemma filter_none {A} (f : A -> bool) (l : list A) :
  (forall x, f x = false) -> filter f l = [].
Proof.
  intros Hf. induction l as [|x l IH]; simpl; [reflexivity|].
  now rewrite Hf.
Qed.

(** X11.  With a threshold of 0 or less, [check_low_items] on a store of
    records as [add_item] writes them returns the empty list and logs that
    all items are sufficiently stocked. *)
Theorem check_low_items_nonpositive (self : InventoryManager) (threshold : Z) :
  regular (_stock_data self) = true ->
  threshold <= 0 ->
  check_low_items self threshold
    = (Return [], log self INFO "All items are sufficiently stocked." []).
Proof.
  intros Hr Ht.
  destruct (_stock_data self) as [| | | | |d] eqn:Hd; try discriminate.
  pose proof (low_items_filter self d threshold Hd
                (regular_well_formed _ Hr)) as Hl.
  rewrite filter_none in Hl.
  - unfold check_low_items. now rewrite Hd, Hl.
  - intros name. apply regular_below_nonpositive; [now rewrite Hd | exact Ht].
Qed.

Lemma check_low_items_nonpositive_witness :
  regular (_stock_data stocked) = true /\ 0 <= 0 /\
  fst (check_low_items stocked 0) = Return [].
Proof.
  split; [reflexivity|]. split; [lia|].
  rewrite (check_low_items_nonpositive stocked 0); [reflexivity..|lia].
Defined.

(** ** The report *)

Lemma logger_print_items (items : list (string * pyval)) (self : InventoryManager) :
  exists l, _logger (snd (print_items self items)) = (_logger self ++ l)%list.
Proof.
  revert self. induction items as [|[name details] items IH]; intros self;
    simpl.
  - exists []. now rewrite app_nil_r.
  - destruct (py_getitem details "quantity") as [q|e];
      [|exists []; now rewrite app_nil_r].
    destruct (py_getitem details "tags") as [t|e];
      [|exists []; now rewrite app_nil_r].
    destruct (IH (log self INFO "%s: %d units | Tags: %s"
                    [Val (PStr name); Val q; Val t])) as (l & Hl).
    rewrite Hl. simpl. rewrite <- app_assoc. now eexists.
Qed.

Lemma logger_print_data (self : InventoryManager) :
  exists l, _logger (snd (print_data self)) = (_logger self ++ l)%list.
Proof.
  unfold print_data.
  destruct (negb (truthy (_stock_data self))); [now eexists|].
  cbn [log _stock_data].
  destruct (_stock_data self) as [| | | | |d]; try (now eexists).
  destruct (logger_print_items d (log self INFO "Inventory contents:" []))
    as (l & Hl).
  rewrite Hl. simpl. rewrite <- app_assoc. now eexists.
Qed.

(** X12.  [print_data] never changes the store, whatever the store holds
    and whether the call returns or raises, and it only adds records at
    the end of the log. *)
Theorem print_data_reads_only (self : InventoryManager) :
  _stock_data (snd (print_data self)) = _stock_data self /\
  exists l, _logger (snd (print_data self)) = (_logger self ++ l)%list.
Proof. split; [apply stock_print_data | apply logger_print_data]. Qed.

Lemma print_items_returns (items : list (string * pyval)) (self : InventoryManager) :
  returns (fst (print_items self items))
    = forallb (fun kv => complete_record (snd kv)) items.
Proof.
  revert self. induction items as [|[name details] items IH]; intros self;
    [reflexivity|].
  cbn [print_items forallb snd].
  destruct details as [| | | | |r]; try reflexivity.
  unfold py_getitem, complete_record, Dict.mem.
  destruct (Dict.get r "quantity"); [|reflexivity].
  destruct (Dict.get r "tags"); [|reflexivity].
  now rewrite IH.
Qed.

Lemma print_data_returns (self : InventoryManager) (d : Dict.t pyval) :
  _stock_data self = PDict d ->
  returns (fst (print_data self))
    = forallb (fun kv => complete_record (snd kv)) d.
Proof.
  intros Hd. unfold print_data. rewrite Hd.
  destruct d as [|kv d]; [reflexivity|].
  cbn [truthy negb log _stock_data]. rewrite Hd.
  apply print_items_returns.
Qed.

(** X13.  On a store that is a dictionary, [print_data] returns exactly
    when every record is a dictionary with both a quantity and a tags
    entry: a record that lacks one (a load can bring it in) makes the
    report raise. *)
Theorem print_data_returns_iff (self : InventoryManager) (d : Dict.t pyval) :
  _stock_data self = PDict d ->
  returns (fst (print_data self))
    = forallb (fun kv => complete_record (snd kv)) d.
Proof. apply print_data_returns. Qed.

Lemma print_data_returns_iff_witness :
  returns (fst (print_data (set_stock init (PDict pen_without_quantity))))
    = false /\
  returns (fst (print_data stocked)) = true.
Proof.
  split.
  - rewrite (print_data_returns_iff _ pen_without_quantity); reflexivity.
  - rewrite (print_data_returns_iff _ pen_notebook); reflexivity.
Defined.

Lemma print_items_log (items : list (string * pyval)) (self : InventoryManager) :
  forallb (fun kv => complete_record (snd kv)) items = true ->
  _logger (snd (print_items self items))
    = (_logger self ++ flat_map item_line items)%list.
Proof.
  revert self. induction items as [|[name details] items IH]; intros self Hc.
  - simpl. now rewrite app_nil_r.
  - cbn [forallb snd] in Hc. apply andb_true_iff in Hc as [Hrec Hc].
    cbn [print_items flat_map]. unfold item_line at 1. cbn [fst snd].
    destruct details as [| | | | |r]; try discriminate.
    unfold complete_record, Dict.mem in Hrec. unfold py_getitem.
    destruct (Dict.get r "quantity") as [q|]; [|discriminate].
    destruct (Dict.get r "tags") as [t|]; [|discriminate].
    rewrite IH by exact Hc. simpl. now rewrite <- app_assoc.
Qed.

(** X14.  On a store whose records all have a quantity and tags,
    [print_data] logs one record when the store is empty, and otherwise a
    heading followed by one record per item, in the order of the store,
    each carrying the item's name, quantity and tags. *)
Theorem print_data_log (self : InventoryManager) (d : Dict.t pyval) :
  _stock_data self = PDict d ->
  forallb (fun kv => complete_record (snd kv)) d = true ->
  _logger (snd (print_data self))
    = (_logger self
       ++ match d with
          | [] => [LogRecord INFO "Inventory is empty." []]
          | _ => LogRecord INFO "Inventory contents:" [] :: flat_map item_line d
          end)%list.
Proof.
  intros Hd Hc. unfold print_data. rewrite Hd.
  destruct d as [|kv d]; [reflexivity|].
  cbn [truthy negb log _stock_data]. rewrite Hd.
  rewrite print_items_log by exact Hc.
  simpl. now rewrite <- app_assoc.
Qed.

Lemma print_data_log_witness :
  _logger (snd (print_data stocked))
    = [LogRecord INFO "Inventory contents:" [];
       LogRecord INFO "%s: %d units | Tags: %s"
         [Val (PStr "Pen"); Val (PInt 15); Val (str_list ["stationery"])];
       LogRecord INFO "%s: %d units | Tags: %s"
         [Val (PStr "Notebook"); Val (PInt 7); Val (str_list ["stationery"])]].
Proof.
  rewrite (print_data_log stocked pen_notebook); reflexivity.
Defined.

(** ** More on saving and loading *)

Section PersistenceMore.
Context `{J : JSON}.



End PersistenceMore.

(** ** Runs *)

Lemma exn_of_returns {A} (r : result A) :
  returns r = true -> exn_of r = None.
Proof. now destruct r. Qed.

Section RunsMore.
Context `{J : JSON}.

Lemma logger_clear (self : InventoryManager) :
  _logger (snd (clear self)) = _logger self.
Proof. unfold clear. now destruct (_stock_data self). Qed.

Lemma logger_step (w : world) (o : op) :
  exists l, _logger (fst (step w o)) = (_logger (fst w) ++ l)%list.
Proof.
  destruct w as [self fs]. destruct o; simpl.
  - unfold add_item. destruct (quantity <? 0); [now eexists|].
    destruct (_stock_data self); simpl;
      try (exists []; now rewrite app_nil_r); now eexists.
  - unfold remove_item.
    destruct (_stock_data self) as [| | | | |d]; simpl;
      try (exists []; now rewrite app_nil_r).
    destruct (Dict.mem d item_name); now eexists.
  - exists []. now rewrite app_nil_r.
  - unfold load_data.
    destruct (negb (exists_ fs filename));
      [rewrite logger_clear; now eexists|].
    destruct (read_text fs filename) as [text|[]]; simpl;
      try (exists []; now rewrite app_nil_r);
      try (rewrite logger_clear; now eexists).
    destruct (json_loads text); [|rewrite logger_clear]; now eexists.
  - unfold save_data.
    destruct (write_text fs filename (json_dumps (_stock_data self)));
      now eexists.
  - apply logger_print_data.
  - unfold check_low_items.
    destruct (_stock_data self) as [| | | | |d]; simpl;
      try (exists []; now rewrite app_nil_r).
    destruct (low_items d threshold) as [[|n l]|e]; simpl;
      try (exists []; now rewrite app_nil_r); now eexists.
Qed.

(** X18.  The log only grows: after any sequence of calls, whatever they
    return or raise, the log is the log from before followed by new
    records; no call removes or rewrites a record. *)
Theorem log_append_only (ops : list op) (w : world) :
  exists l, _logger (fst (run ops w)) = (_logger (fst w) ++ l)%list.
Proof.
  revert w. induction ops as [|o ops IH]; intros w.
  - exists []. simpl. now rewrite app_nil_r.
  - cbn [run fold_left]. destruct (IH (step w o)) as (l2 & H2).
    destruct (logger_step w o) as (l1 & H1).
    unfold run in H2. rewrite H2, H1, <- app_assoc. now eexists.
Qed.

Lemma regular_step (w : world) (o : op) :
  regular (_stock_data (fst w)) = true ->
  loads_regular [o] w = true ->
  escapes w o = None /\ regular (_stock_data (fst (step w o))) = true.
Proof.
  destruct w as [self fs]. intros Hr Hl. simpl in Hl. cbn [fst] in Hr.
  rewrite andb_true_r in Hl.
  pose proof Hr as Hr'.
  destruct (_stock_data self) as [| | | | |d] eqn:Hd; try discriminate.
  destruct o; simpl.
  - split; [|apply regular_add_item; now rewrite Hd].
    unfold add_item. destruct (quantity <? 0); [reflexivity|].
    now rewrite Hd.
  - split; [|apply regular_remove_item; now rewrite Hd].
    unfold remove_item. rewrite Hd. now destruct (Dict.mem d item_name).
  - split; [|now rewrite Hd].
    destruct (regular_store_quantity self item_name) as (q & -> & _);
      [now rewrite Hd | reflexivity].
  - apply andb_true_iff in Hl as [Hu Hdoc]. apply negb_true_iff in Hu.
    assert (Hclear : forall l m a,
               clear (log self l m a)
               = (Return tt, set_stock (log self l m a) (PDict []))).
    { intros l m a. unfold clear. simpl. now rewrite Hd. }
    unfold load_data, document, undecodable, exists_, read_text in *.
    destruct (fs filename) as [c|[|] wr content]; simpl in *;
      rewrite ?Hclear; try (split; reflexivity).
    destruct (UTF8.valid content); [|discriminate].
    destruct (json_loads content) as [v|]; simpl;
      rewrite ?Hclear; split; try reflexivity. exact Hdoc.
  - unfold save_data.
    destruct (write_text fs filename (json_dumps (_stock_data self)));
      simpl; rewrite Hd; split; auto.
  - rewrite stock_print_data, Hd. split; [|exact Hr].
    apply exn_of_returns.
    rewrite (print_data_returns self d Hd). now apply regular_complete.
  - rewrite stock_check_low_items, Hd. split; [|exact Hr].
    apply exn_of_returns.
    rewrite check_low_items_fst, Hd, low_items_returns.
    now apply regular_comparable.
Qed.

Lemma regular_run (ops : list op) (w : world) :
  regular (_stock_data (fst w)) = true ->
  loads_regular ops w = true ->
  all_return ops w = true /\ regular (_stock_data (fst (run ops w))) = true.
Proof.
  revert w. induction ops as [|o ops IH]; intros w Hr Hl; [now split|].
  cbn [loads_regular] in Hl. apply andb_true_iff in Hl as [Ho Hl].
  destruct (regular_step w o Hr) as [He Hr'].
  { cbn [loads_regular]. now rewrite Ho. }
  destruct (IH (step w o) Hr' Hl) as [Hall Hfin].
  cbn [all_return run fold_left]. rewrite He. simpl. now split.
Qed.

Lemma no_load_loads_regular (ops : list op) (w : world) :
  no_load ops = true -> loads_regular ops w = true.
Proof.
  revert w. induction ops as [|o ops IH]; intros w Hn; [reflexivity|].
  cbn [no_load forallb] in Hn. apply andb_true_iff in Hn as [Ho Hn].
  cbn [loads_regular]. rewrite (IH _ Hn).
  destruct o; try reflexivity. discriminate.
Qed.

(** X20.  A manager that has never loaded answers [get_quantity] with a
    non-negative [int]: after any sequence of calls without [load_data]
    from a fresh manager, for every name. *)
Theorem never_negative_without_load (ops : list op) (fs : filesystem)
    (item_name : string) :
  no_load ops = true ->
  exists q,
    get_quantity (fst (run ops (init, fs))) item_name = Return (PInt q) /\
    0 <= q.
Proof.
  intros Hn. apply regular_store_quantity.
  apply (regular_run ops (init, fs)); [reflexivity|].
  now apply no_load_loads_regular.
Qed.


End RunsMore.

Lemma never_negative_without_load_witness :
  no_load [AddItem "Pen" None 15; AddItem "Pen" None (-4); RemoveItem "Ink"]
    = true /\
  exists q,
    get_quantity
      (fst (run (J := RefJSON.json)
              [AddItem "Pen" None 15; AddItem "Pen" None (-4); RemoveItem "Ink"]
              (init, empty_dir))) "Pen" = Return (PInt q) /\
    0 <= q.
Proof.
  split; [reflexivity|].
  apply (never_negative_without_load (J := RefJSON.json)
           [AddItem "Pen" None 15; AddItem "Pen" None (-4); RemoveItem "Ink"]
           empty_dir "Pen").
  reflexivity.
Defined.

(** ** The summary *)

Lemma mem_existsb (d : Dict.t pyval) (k : string) :
  Dict.mem d k = existsb (String.eqb k) (Dict.keys d).
Proof.
  unfold Dict.mem. induction d as [|[k' v'] d IH]; simpl; [reflexivity|].
  destruct (String.eqb k k'); [reflexivity | exact IH].
Qed.

Lemma length_del (d : Dict.t pyval) (k : string) :
  unique (Dict.keys d) = true ->
  List.length (Dict.del d k)
    = (List.length d - if Dict.mem d k then 1 else 0)%nat.
Proof.
  induction d as [|[k' v'] d IH]; simpl; [reflexivity|].
  intros Hu. apply andb_true_iff in Hu as [Hfresh Hu].
  apply negb_true_iff in Hfresh.
  unfold Dict.mem. simpl.
  destruct (String.eqb k k') eqn:E.
  - apply String.eqb_eq in E. subst k'.
    rewrite DictMore.del_absent by (now rewrite mem_existsb). lia.
  - simpl. rewrite (IH Hu). unfold Dict.mem.
    destruct (Dict.get d k) eqn:Hg; [|lia].
    destruct d; [discriminate | simpl; lia].
Qed.

(** X21.  On a store that is a dictionary, [__str__] reports the number of
    names: it goes up by one when an accepted [add_item] brings a new
    name, stays when the name was a key, and goes down by one when
    [remove_item] removes a key. *)
Theorem summary_counts_names (self : InventoryManager) (d : Dict.t pyval) :
  _stock_data self = PDict d ->
  unique (Dict.keys d) = true ->
  __str__ self = Return (summary (List.length d)) /\
  (forall item_name tags quantity, 0 <= quantity ->
     __str__ (snd (add_item self item_name tags quantity))
       = Return (summary (List.length d
                          + if Dict.mem d item_name then 0 else 1))) /\
  (forall item_name,
     __str__ (snd (remove_item self item_name))
       = Return (summary (List.length d
                          - if Dict.mem d item_name then 1 else 0))).
Proof.
  intros Hd Hu. unfold __str__. repeat apply conj.
  - now rewrite Hd.
  - intros item_name tags quantity Hq. rewrite stock_add_item, Hd.
    destruct (quantity <? 0) eqn:E; [apply Z.ltb_lt in E; lia|].
    simpl. now rewrite DictMore.length_set.
  - intros item_name. rewrite stock_remove_item, Hd. simpl.
    now rewrite length_del.
Qed.

Lemma summary_counts_names_witness :
  __str__ stocked = Return "InventoryManager(2 items)" /\
  __str__ (snd (add_item stocked "Eraser" None 4))
    = Return "InventoryManager(3 items)" /\
  __str__ (snd (remove_item stocked "Pen")) = Return "InventoryManager(1 items)".
Proof.
  destruct (summary_counts_names stocked pen_notebook)
    as (Hnow & Hadd & Hdel); [reflexivity | reflexivity |].
  split; [exact Hnow|]. split.
  - apply (Hadd "Eraser" None 4). lia.
  - apply (Hdel "Pen").
Defined.

(** ** The demonstration *)

Section MainFacts.
Context `{J : JSON}.

Lemma escapes_save (w : world) (filename : string) :
  escapes w (SaveData filename) = None.
Proof.
  destruct w as [self fs]. simpl. unfold save_data.
  now destruct (write_text fs filename (json_dumps (_stock_data self))).
Qed.

(** X22.  [main()] writes nothing unless every call before the save
    returned: if it ends with an exception, the file system is as it
    was. *)
Theorem main_raises_writes_nothing (fs : filesystem) (e : exn) :
  fst (main fs) = Some e -> snd (snd (main fs)) = fs.
Proof.
  unfold main, main_ops. cbn [exec].
  repeat match goal with
         | |- context [match escapes ?w (SaveData ?p) with _ => _ end] =>
             rewrite (escapes_save w p)
         | |- context [match escapes ?w ?o with _ => _ end] =>
             destruct (escapes w o); [intros _; reflexivity|]
         end.
  discriminate.
Qed.






End MainFacts.

Lemma main_raises_writes_nothing_witness :
  fst (main (J := RefJSON.json) scalar_stock) = Some TypeError /\
  snd (snd (main (J := RefJSON.json) scalar_stock)) = scalar_stock.
Proof.
  split; [vm_compute; reflexivity|].
  apply (main_raises_writes_nothing (J := RefJSON.json) scalar_stock TypeError).
  vm_compute. reflexivity.
Defined.



(** * The round trip through a file *)

(** ** The reference [json] reads back the stores it writes

    For a store of records as [add_item] builds them, under ASCII names and
    with ASCII tags: the text that [RefJSON.print] writes is ASCII, and
    [RefJSON.parse] reads it back as the store. *)
Module RefJSONFacts.
Import RefJSON.









(** *** Integers *)

Local Open Scope nat_scope.




Local Close Scope nat_scope.




(** *** The layout *)



(** *** Values in their layout *)









(** *** Tags *)



(** *** Records *)


(** *** Lengths: the text is longer than the fuel its reading takes *)







(** *** Stores *)





(** *** What is written is ASCII, hence UTF-8 *)













End RefJSONFacts.

(** ** [save_data] then [load_data] *)



